(** * learning-gin: the books CRUD handlers of [main.go]

    A shallow embedding of the five request handlers ([getBooks],
    [getBookByID], [addBook], [updateBook], [deleteBook]) together with the
    parts of their collaborators that decide what they answer: the hex
    identifier parser, the JSON binding of a [Book], the BSON form of a
    [Book], and the [library.books] collection.

    Handlers are programs in a small state monad over the gin context of
    the request and the store; [log.Fatal] ends the process and is a
    second way for a program to finish.

    [main.go] calls into gin, [encoding/json], [encoding/hex] and the MongoDB
    driver. Those are given here by what they do on the values this program
    hands them: a request body is a JSON text already parsed (or bytes that
    are no JSON), a document is a finite map from field names to values, and
    a store call either fails in transit or is answered from the collection.
    The contexts with their ten second deadline, [defer cancel()] and
    [defer cursor.Close(ctx)] release resources and change no answer; a
    deadline that runs out is one of the ways a store call fails. *)

From Stdlib Require Import SpecFloat NArith ZArith.
From Stdlib.Strings Require Import Byte Ascii.
From stdpp Require Import base option list strings pretty gmap.

Local Open Scope string_scope.

(** ** Go errors *)

(** The [error] values that reach the handlers. A handler only looks at
    [err != nil] and, for a body that does not bind, at [err.Error()]. *)
Inductive error : Type :=
  | ErrInvalidHex                                  (* primitive.ErrInvalidHex *)
  | ErrLength                                      (* hex.ErrLength *)
  | InvalidByteError (c : ascii)                   (* hex.InvalidByteError *)
  | SyntaxError (msg : string)                     (* the body is not a JSON text *)
  | UnmarshalTypeError (value field type_ : string)
  | ErrNotExtendedJSON                             (* ObjectID.UnmarshalJSON *)
  | ErrObjectIDLength (n : nat)                    (* ObjectID.UnmarshalJSON *)
  | UnsupportedValueError                          (* json.Marshal of NaN or an infinity *)
  | ErrNoDocuments                                 (* mongo.ErrNoDocuments *)
  | ErrDecodeValue (key : string)                  (* bson: value does not fit the field *)
  | DeadlineExceeded                               (* the 10 second context ran out *)
  | ErrNetwork (msg : string)                      (* connection lost, server selection *)
  | WriteError (code : Z) (msg : string).         (* the server refused the write *)

(** [err.Error()], in the wording of the libraries; the handlers pass it on
    as it is and nothing below depends on the wording. *)
Definition Error (e : error) : string :=
  match e with
  | ErrInvalidHex => "the provided hex string is not a valid ObjectID"
  | ErrLength => "encoding/hex: odd length hex string"
  | InvalidByteError c => "encoding/hex: invalid byte: " +:+ String c ""
  | SyntaxError msg => msg
  | UnmarshalTypeError v f t =>
      if bool_decide (f = "")
      then "json: cannot unmarshal " +:+ v +:+ " into Go value of type " +:+ t
      else "json: cannot unmarshal " +:+ v +:+ " into Go struct field " +:+ f
             +:+ " of type " +:+ t
  | ErrNotExtendedJSON => "not an extended JSON ObjectID"
  | ErrObjectIDLength n =>
      "cannot unmarshal into an ObjectID, the length must be 24 but it is "
        +:+ pretty n
  | UnsupportedValueError => "json: unsupported value"
  | ErrNoDocuments => "mongo: no documents in result"
  | ErrDecodeValue k => "error decoding key " +:+ k
  | DeadlineExceeded => "context deadline exceeded"
  | ErrNetwork msg => msg
  | WriteError _ msg => msg
  end.

(** A Go call returning [(v, err)]. *)
Abbreviation Result := (sum error).

(** ** Identifiers: [primitive.ObjectID] and [encoding/hex] *)

(** [primitive.ObjectID] is [[12]byte]. *)
Definition ObjectID : Type := list byte.

Definition NilObjectID : ObjectID := replicate 12 x00.

#[global] Instance byte_eq_dec : EqDecision byte := Byte.byte_eq_dec.

(** [ObjectID.IsZero]. *)
Definition IsZero (id : ObjectID) : bool := bool_decide (id = NilObjectID).

(** [hex.fromHexChar]: the value of one hexadecimal digit. *)
Definition fromHexChar (c : ascii) : option N :=
  let n := N_of_ascii c in
  if ((48 <=? n) && (n <=? 57))%N then Some (n - 48)%N
  else if ((97 <=? n) && (n <=? 102))%N then Some (n - 97 + 10)%N
  else if ((65 <=? n) && (n <=? 70))%N then Some (n - 65 + 10)%N
  else None.

Definition mkbyte (hi lo : N) : byte :=
  byte_of_ascii (ascii_of_N (16 * hi + lo)).

(** [hex.Decode]: two digits per byte; the first offending character is
    reported, an odd length after that. *)
Fixpoint hex_Decode (src : string) : Result (list byte) :=
  match src with
  | EmptyString => inr []
  | String p EmptyString =>
      match fromHexChar p with
      | None => inl (InvalidByteError p)
      | Some _ => inl ErrLength
      end
  | String p (String q rest) =>
      match fromHexChar p, fromHexChar q with
      | None, _ => inl (InvalidByteError p)
      | Some _, None => inl (InvalidByteError q)
      | Some a, Some b =>
          match hex_Decode rest with
          | inl e => inl e
          | inr bs => inr (mkbyte a b :: bs)
          end
      end
  end.

(** [primitive.ObjectIDFromHex]. *)
Definition ObjectIDFromHex (s : string) : Result ObjectID :=
  if bool_decide (String.length s = 24) then hex_Decode s
  else inl ErrInvalidHex.

Definition hexdigit (n : N) : ascii :=
  if (n <? 10)%N then ascii_of_N (48 + n) else ascii_of_N (87 + n).

(** [ObjectID.Hex]: lower-case hexadecimal. *)
Fixpoint Hex (id : list byte) : string :=
  match id with
  | [] => EmptyString
  | b :: rest =>
      let n := Byte.to_N b in
      String (hexdigit (n / 16)) (String (hexdigit (n mod 16)) (Hex rest))
  end.

(** ** The entity *)

(** Go's [float64], as the IEEE 754 binary64 datum it is. *)
Definition float64 : Type := spec_float.

Definition float64_zero : float64 := S754_zero false.

(** [float64(z)] of an integer. *)
Definition float64_of_Z (z : Z) : float64 := binary_normalize 53 1024 z 0 false.

(** [math.IsInf(f, 0) || math.IsNaN(f)]. *)
Definition notFinite (f : float64) : bool :=
  match f with
  | S754_infinity _ | S754_nan => true
  | _ => false
  end.

(** [type Book struct]; the tags are [json:"id,omitempty" bson:"_id,omitempty"]
    on [ID] and the lower-case field name, for both formats, on the rest. *)
Record Book : Type := mkBook {
  ID : ObjectID;
  Title : string;
  Author : string;
  Price : float64;
}.

(** [var book Book]: every field at its zero value. *)
Definition zeroBook : Book :=
  {| ID := NilObjectID; Title := ""; Author := ""; Price := float64_zero |}.

Definition withID (id : ObjectID) (b : Book) : Book :=
  {| ID := id; Title := Title b; Author := Author b; Price := Price b |}.
Definition withTitle (s : string) (b : Book) : Book :=
  {| ID := ID b; Title := s; Author := Author b; Price := Price b |}.
Definition withAuthor (s : string) (b : Book) : Book :=
  {| ID := ID b; Title := Title b; Author := s; Price := Price b |}.
Definition withPrice (f : float64) (b : Book) : Book :=
  {| ID := ID b; Title := Title b; Author := Author b; Price := f |}.

Inductive Field : Type := FID | FTitle | FAuthor | FPrice.

(** ** JSON: [encoding/json] on a [Book] *)

(** A JSON text after parsing. A number carries the [float64] that
    [strconv.ParseFloat] gives for its literal: an infinity when the literal
    is out of range. An object keeps its members in the order written,
    repeated keys included. *)
#[warnings="-register-all"]
Inductive json : Type :=
  | JNull
  | JBool (b : bool)
  | JNumber (f : float64)
  | JString (s : string)
  | JArray (items : list json)
  | JObject (members : list (string * json)).

Definition kindName (v : json) : string :=
  match v with
  | JNull => "null"
  | JBool _ => "bool"
  | JNumber _ => "number"
  | JString _ => "string"
  | JArray _ => "array"
  | JObject _ => "object"
  end.

Definition lower (c : ascii) : ascii :=
  let n := N_of_ascii c in
  if ((65 <=? n) && (n <=? 90))%N then ascii_of_N (n + 32) else c.

Fixpoint ToLower (s : string) : string :=
  match s with
  | EmptyString => EmptyString
  | String c rest => String (lower c) (ToLower rest)
  end.

(** The field a member key names. [encoding/json] takes the exact name or,
    failing that, a name equal under case folding; the four names here hold
    no letter with a fold outside ASCII, so folding is [ToLower]. *)
Definition fieldByName (key : string) : option Field :=
  let k := ToLower key in
  if bool_decide (k = "id") then Some FID
  else if bool_decide (k = "title") then Some FTitle
  else if bool_decide (k = "author") then Some FAuthor
  else if bool_decide (k = "price") then Some FPrice
  else None.

(** The value a Go map built from the members has at [key]: of repeated
    keys the last one stays. *)
Fixpoint lastMember (key : string) (members : list (string * json)) : option json :=
  match members with
  | [] => None
  | (k, v) :: rest =>
      match lastMember key rest with
      | Some v' => Some v'
      | None => if bool_decide (k = key) then Some v else None
      end
  end.

(** [ObjectID.UnmarshalJSON]: [null] leaves the identifier alone; a
    string, or the string under ["$oid"] of an object, is taken as 24
    hexadecimal digits, the empty string as [NilObjectID]. (The driver
    also takes a value whose text is exactly twelve bytes long as the raw
    identifier; a parsed text has no length and that path is left out.) *)
Definition ObjectID_UnmarshalJSON (id : ObjectID) (v : json) : Result ObjectID :=
  let parse (str : string) : Result ObjectID :=
    if bool_decide (String.length str = 0) then inr NilObjectID
    else if bool_decide (String.length str = 24) then hex_Decode str
    else inl (ErrObjectIDLength (String.length str)) in
  match v with
  | JNull => inr id
  | JString str => parse str
  | JObject m =>
      match lastMember "$oid" m with
      | Some (JString str) => parse str
      | _ => inl ErrNotExtendedJSON
      end
  | _ => inl ErrNotExtendedJSON
  end.

(** [d.saveError]: of the type errors met while decoding, the first is kept. *)
Definition saveError (saved : option error) (e : error) : option error :=
  match saved with
  | Some _ => saved
  | None => Some e
  end.

(** Storing one member's value into the field it names. A value of the
    wrong kind is a saved error and decoding goes on; an error from
    [UnmarshalJSON] ends decoding at once. *)
Definition storeField (f : Field) (v : json) (st : Book * option error)
  : Result (Book * option error) :=
  let '(b, saved) := st in
  match f with
  | FID =>
      match ObjectID_UnmarshalJSON (ID b) v with
      | inl e => inl e
      | inr id => inr (withID id b, saved)
      end
  | FTitle =>
      match v with
      | JString s => inr (withTitle s b, saved)
      | JNull => inr st
      | _ => inr (b, saveError saved (UnmarshalTypeError (kindName v) "Book.title" "string"))
      end
  | FAuthor =>
      match v with
      | JString s => inr (withAuthor s b, saved)
      | JNull => inr st
      | _ => inr (b, saveError saved (UnmarshalTypeError (kindName v) "Book.author" "string"))
      end
  | FPrice =>
      match v with
      | JNumber x =>
          if notFinite x
          then inr (b, saveError saved (UnmarshalTypeError "number" "Book.price" "float64"))
          else inr (withPrice x b, saved)
      | JNull => inr st
      | _ => inr (b, saveError saved (UnmarshalTypeError (kindName v) "Book.price" "float64"))
      end
  end.

(** [d.object]: the members in order; keys that name no field are skipped. *)
Fixpoint object (members : list (string * json)) (st : Book * option error)
  : Result (Book * option error) :=
  match members with
  | [] => inr st
  | (key, v) :: rest =>
      match fieldByName key with
      | None => object rest st
      | Some f =>
          match storeField f v st with
          | inl e => inl e
          | inr st' => object rest st'
          end
      end
  end.

(** [json.Unmarshal(text, &b)] for [b : Book]. *)
Definition json_Unmarshal (v : json) (b : Book) : Result Book :=
  match v with
  | JNull => inr b
  | JObject members =>
      match object members (b, None) with
      | inl e => inl e
      | inr (_, Some e) => inl e
      | inr (b', None) => inr b'
      end
  | _ => inl (UnmarshalTypeError (kindName v) "" "main.Book")
  end.

(** ** BSON: a [Book] as a document *)

(** The BSON values the collection is taken to hold. *)
Inductive bval : Type :=
  | BDouble (f : float64)
  | BString (s : string)
  | BObjectID (id : ObjectID)
  | BInt32 (z : Z)
  | BInt64 (z : Z)
  | BNull.

#[global] Instance float64_eq_dec : EqDecision float64.
Proof. unfold float64. solve_decision. Defined.

#[global] Instance bval_eq_dec : EqDecision bval.
Proof. solve_decision. Defined.

(** A document: field name to value. *)
Abbreviation Doc := (gmap string bval).

(** [bson.Marshal(book)]: [_id] is left out when it is the zero identifier
    ([omitempty]); [title], [author] and [price] are always written. *)
Definition bson_Marshal (b : Book) : Doc :=
  let d : Doc := {[ "title" := BString (Title b);
                    "author" := BString (Author b);
                    "price" := BDouble (Price b) ]} in
  if IsZero (ID b) then d else <["_id" := BObjectID (ID b)]> d.

Fixpoint bytes_of_string (s : string) : list byte :=
  match s with
  | EmptyString => []
  | String c rest => byte_of_ascii c :: bytes_of_string rest
  end.

(** The driver's default decoders for the three field types, on the values
    of [bval]. *)
Definition decodeObjectID (key : string) (v : bval) : Result ObjectID :=
  match v with
  | BObjectID id => inr id
  | BString s =>
      match ObjectIDFromHex s with
      | inr id => inr id
      | inl _ =>
          if bool_decide (String.length s = 12) then inr (bytes_of_string s)
          else inl (ErrDecodeValue key)
      end
  | BNull => inr NilObjectID
  | _ => inl (ErrDecodeValue key)
  end.

Definition decodeString (key : string) (v : bval) : Result string :=
  match v with
  | BString s => inr s
  | BObjectID id => inr (Hex id)
  | BNull => inr ""
  | _ => inl (ErrDecodeValue key)
  end.

Definition decodeFloat64 (key : string) (v : bval) : Result float64 :=
  match v with
  | BDouble f => inr f
  | BInt32 z | BInt64 z => inr (float64_of_Z z)
  | BNull => inr float64_zero
  | _ => inl (ErrDecodeValue key)
  end.

(** One field of the struct: absent from the document, it keeps the value
    it has. *)
Definition decodeField {A : Type} (d : Doc) (key : string)
    (dec : string → bval → Result A) (old : A) : Result A :=
  match d !! key with
  | None => inr old
  | Some v => dec key v
  end.

(** [bson.Unmarshal(raw, &b)]: what [cursor.Decode] and
    [SingleResult.Decode] do with a document that was found. *)
Definition bson_Unmarshal (d : Doc) (b : Book) : Result Book :=
  match decodeField d "_id" decodeObjectID (ID b) with
  | inl e => inl e
  | inr id =>
      match decodeField d "title" decodeString (Title b) with
      | inl e => inl e
      | inr title =>
          match decodeField d "author" decodeString (Author b) with
          | inl e => inl e
          | inr author =>
              match decodeField d "price" decodeFloat64 (Price b) with
              | inl e => inl e
              | inr price => inr (mkBook id title author price)
              end
          end
      end
  end.

(** ** The store: [bookCollection] *)

(** A filter document matches the documents that carry each of its fields
    with the same value: [bson.M{}] matches all, [bson.M{"_id": objID}] the
    documents whose [_id] is that identifier. *)
Definition matches (filter d : Doc) : bool :=
  bool_decide (map_Forall (λ k v, d !! k = Some v) filter).

(** The update document [bson.D{{Key: "$set", Value: v}}]. *)
Inductive Update : Type :=
  | SetFields (fields : Doc).

Inductive Command : Type :=
  | CmdFind (filter : Doc)
  | CmdFindOne (filter : Doc)
  | CmdInsertOne (d : Doc)
  | CmdUpdateOne (filter : Doc) (u : Update)
  | CmdDeleteOne (filter : Doc).

Record Store : Type := mkStore {
  docs : list Doc;       (* library.books, in natural order *)
  fault : option error;  (* the driver call of this request fails with it:
                            deadline, network; the collection is not touched *)
  nextID : ObjectID;     (* what primitive.NewObjectID() gives next *)
  trace : list Command;  (* the commands sent to the collection so far *)
}.

Definition sent (cmd : Command) (st : Store) : Store :=
  {| docs := docs st; fault := fault st; nextID := nextID st;
     trace := (trace st ++ [cmd])%list |}.

Definition withDocs (bs : list Doc) (st : Store) : Store :=
  {| docs := bs; fault := fault st; nextID := nextID st; trace := trace st |}.

(** [*mongo.InsertOneResult], [*mongo.UpdateResult], [*mongo.DeleteResult]. *)
Record InsertOneResult : Type := { InsertedID : bval }.
Record UpdateResult : Type := { MatchedCount : Z; ModifiedCount : Z }.
Record DeleteResult : Type := { DeletedCount : Z }.

(** The first document a filter matches. *)
Definition findFirst (filter : Doc) (bs : list Doc) : option Doc :=
  List.find (matches filter) bs.

(** [$set] on one document: every field of the update is written over the
    document's; [_id] cannot change. *)
Definition applySet (fields d : Doc) : Result Doc :=
  match fields !! "_id" with
  | Some v =>
      if bool_decide (d !! "_id" = Some v) then inr (fields ∪ d)
      else inl (WriteError 66 "Performing an update on the path '_id' would modify the immutable field '_id'")
  | None => inr (fields ∪ d)
  end.

(** The server's side of [UpdateOne]: the first match is rewritten, no match
    changes nothing. *)
Fixpoint updateFirst (filter fields : Doc) (bs : list Doc)
  : Result (UpdateResult * list Doc) :=
  match bs with
  | [] => inr ({| MatchedCount := 0; ModifiedCount := 0 |}, [])
  | d :: rest =>
      if matches filter d then
        match applySet fields d with
        | inl e => inl e
        | inr d' =>
            inr ({| MatchedCount := 1;
                    ModifiedCount := if bool_decide (d' = d) then 0 else 1 |},
                 d' :: rest)
        end
      else
        match updateFirst filter fields rest with
        | inl e => inl e
        | inr (r, rest') => inr (r, d :: rest')
        end
  end.

(** The server's side of [DeleteOne]: the first match goes. *)
Fixpoint deleteFirst (filter : Doc) (bs : list Doc) : DeleteResult * list Doc :=
  match bs with
  | [] => ({| DeletedCount := 0 |}, [])
  | d :: rest =>
      if matches filter d then ({| DeletedCount := 1 |}, rest)
      else let '(r, rest') := deleteFirst filter rest in (r, d :: rest')
  end.

(** ** The gin context *)

(** Go slices: [None] is the nil slice, which is not the empty one. *)
Definition slice (A : Type) : Type := option (list A).

Definition append {A : Type} (s : slice A) (x : A) : slice A :=
  Some ((default [] s ++ [x])%list).

(** The values that are put under a key of a [gin.H]. *)
Inductive any : Type :=
  | AString (s : string)
  | AInsertOneResult (r : InsertOneResult).

(** [gin.H], as its literal is written. *)
Abbreviation H := (list (string * any)).

(** What a handler hands to [c.JSON]. *)
Inductive Payload : Type :=
  | PH (h : H)
  | PBook (b : Book)
  | PBooks (bs : slice Book).

(** The request body: a JSON text, or bytes that are none ([err] is what the
    decoder says of them; an empty body is [EOF]). *)
Inductive BodyText : Type :=
  | NotJSON (err : error)
  | Text (v : json).

Record Context : Type := mkContext {
  Params : list (string * string);  (* the path parameters *)
  Body : BodyText;
  bodyRead : bool;                  (* the body has been consumed *)
  Status : option Z;                (* the status line, once it is written *)
  Written : list Payload;           (* the bodies written, in order *)
}.

Definition StatusOK : Z := 200.
Definition StatusCreated : Z := 201.
Definition StatusBadRequest : Z := 400.
Definition StatusNotFound : Z := 404.
Definition StatusInternalServerError : Z := 500.

(** ** Handler programs *)

Record State : Type := mkState { ctx : Context; store : Store }.

(** A program runs to its end, or the process exits under it. *)
Inductive Outcome (A : Type) : Type :=
  | Done (a : A) (s : State)
  | Exit (code : Z) (s : State).
Arguments Done {A} a s.
Arguments Exit {A} code s.

Definition M (A : Type) : Type := State → Outcome A.

#[global] Instance M_ret : MRet M := λ A a s, Done a s.
#[global] Instance M_bind : MBind M := λ A B f m s,
  match m s with
  | Done a s' => f a s'
  | Exit code s' => Exit code s'
  end.

(** [log.Fatal(err)]: [os.Exit(1)]; deferred calls do not run. *)
Definition log_Fatal {A : Type} (err : error) : M A := λ s, Exit 1 s.

(** The status line is fixed by the first write. *)
Definition WriteHeader (code : Z) (c : Context) : Context :=
  {| Params := Params c; Body := Body c; bodyRead := bodyRead c;
     Status := Some (default code (Status c)); Written := Written c |}.

(** [c.Param(key)]: the empty string when the route has no such parameter. *)
Definition Param (key : string) : M string := λ s,
  Done (default "" (snd <$> List.find (λ kv, bool_decide (kv.1 = key)) (Params (ctx s)))) s.

(** [c.JSON(code, obj)]. *)
Definition JSON (code : Z) (obj : Payload) : M unit := λ s,
  let c := WriteHeader code (ctx s) in
  Done tt {| ctx := {| Params := Params c; Body := Body c; bodyRead := bodyRead c;
                       Status := Status c; Written := (Written c ++ [obj])%list |};
             store := store s |}.

(** [binding.JSON]'s decoding of a body over [b]; [Book] has no [binding]
    tags, so nothing is validated afterwards. *)
Definition decodeJSON (body : BodyText) (b : Book) : Result Book :=
  match body with
  | NotJSON err => inl err
  | Text v => json_Unmarshal v b
  end.

(** [c.BindJSON(&b)]: the body is consumed and decoded over [b]; on an error
    gin has already sent the 400 status line when the handler sees it. *)
Definition readBody (c : Context) : Context :=
  {| Params := Params c; Body := Body c; bodyRead := true;
     Status := Status c; Written := Written c |}.

Definition BindJSON (b : Book) : M (Result Book) := λ s,
  let c := readBody (ctx s) in
  match decodeJSON (Body (ctx s)) b with
  | inl err => Done (inl err) {| ctx := WriteHeader StatusBadRequest c; store := store s |}
  | inr b' => Done (inr b') {| ctx := c; store := store s |}
  end.

(** One driver call: it is recorded, and either fails in transit or is
    answered by the server from the collection. *)
Definition call {A : Type} (cmd : Command)
    (serve : list Doc → Result (A * list Doc)) : M (Result A) := λ s,
  let st := sent cmd (store s) in
  match fault st with
  | Some e => Done (inl e) {| ctx := ctx s; store := st |}
  | None =>
      match serve (docs st) with
      | inl e => Done (inl e) {| ctx := ctx s; store := st |}
      | inr (a, bs) => Done (inr a) {| ctx := ctx s; store := withDocs bs st |}
      end
  end.

(** [bookCollection.Find(ctx, filter)]: a cursor over the matching documents,
    which [cursor.Next] then delivers one by one to the last. *)
Definition Find (filter : Doc) : M (Result (list Doc)) :=
  call (CmdFind filter) (λ bs, inr (List.filter (matches filter) bs, bs)).

(** [bookCollection.FindOne(ctx, filter)]: the [SingleResult]. *)
Definition FindOne (filter : Doc) : M (Result Doc) :=
  call (CmdFindOne filter)
       (λ bs, match findFirst filter bs with
              | None => inl ErrNoDocuments
              | Some d => inr (d, bs)
              end).

(** [SingleResult.Decode(&b)]. *)
Definition SingleResult_Decode (r : Result Doc) (b : Book) : Result Book :=
  match r with
  | inl e => inl e
  | inr raw => bson_Unmarshal raw b
  end.

(** [bookCollection.InsertOne(ctx, book)]: the driver gives the document an
    [_id] when it has none; the server refuses an [_id] that is taken. *)
Definition InsertOne (b : Book) : M (Result InsertOneResult) := λ s,
  let d := bson_Marshal b in
  let id := default (BObjectID (nextID (store s))) (d !! "_id") in
  let d' := <["_id" := id]> d in
  call (CmdInsertOne d')
       (λ bs, if bool_decide (Exists (λ x, x !! "_id" = Some id) bs)
              then inl (WriteError 11000 "E11000 duplicate key error collection: library.books index: _id_")
              else inr ({| InsertedID := id |}, (bs ++ [d'])%list)) s.

(** [bookCollection.UpdateOne(ctx, filter, update)]. *)
Definition UpdateOne (filter : Doc) (u : Update) : M (Result UpdateResult) :=
  call (CmdUpdateOne filter u)
       (λ bs, match u with SetFields fields => updateFirst filter fields bs end).

(** [bookCollection.DeleteOne(ctx, filter)]. *)
Definition DeleteOne (filter : Doc) : M (Result DeleteResult) :=
  call (CmdDeleteOne filter) (λ bs, inr (deleteFirst filter bs)).

(** ** The handlers of [main.go] *)

(** The loop of [getBooks]: [for cursor.Next(ctx)], with a new [var book Book]
    each round. *)
Fixpoint drain (cursor : list Doc) (books : slice Book) : M (slice Book) :=
  match cursor with
  | [] => mret books
  | raw :: rest =>
      match bson_Unmarshal raw zeroBook with
      | inl err => log_Fatal err
      | inr book => drain rest (append books book)
      end
  end.

(** Get all books. *)
Definition getBooks : M unit :=
  r ← Find ∅;
  match r with
  | inl _ =>
      JSON StatusInternalServerError (PH [("error", AString "Error retrieving books")])
  | inr cursor =>
      books ← drain cursor None;
      JSON StatusOK (PBooks books)
  end.

(** Get a single book by ID. *)
Definition getBookByID : M unit :=
  id ← Param "id";
  match ObjectIDFromHex id with
  | inl _ => JSON StatusBadRequest (PH [("error", AString "Invalid ID")])
  | inr objID =>
      r ← FindOne {[ "_id" := BObjectID objID ]};
      match SingleResult_Decode r zeroBook with
      | inl _ => JSON StatusNotFound (PH [("error", AString "Book not found")])
      | inr book => JSON StatusOK (PBook book)
      end
  end.

(** Add a new book. *)
Definition addBook : M unit :=
  bound ← BindJSON zeroBook;
  match bound with
  | inl err => JSON StatusBadRequest (PH [("error", AString (Error err))])
  | inr newBook =>
      r ← InsertOne newBook;
      match r with
      | inl _ =>
          JSON StatusInternalServerError (PH [("error", AString "Error inserting book")])
      | inr result => JSON StatusCreated (PH [("insertedID", AInsertOneResult result)])
      end
  end.

(** Update a book by ID. *)
Definition updateBook : M unit :=
  id ← Param "id";
  match ObjectIDFromHex id with
  | inl _ => JSON StatusBadRequest (PH [("error", AString "Invalid ID")])
  | inr objID =>
      bound ← BindJSON zeroBook;
      match bound with
      | inl err => JSON StatusBadRequest (PH [("error", AString (Error err))])
      | inr updatedBook =>
          r ← UpdateOne {[ "_id" := BObjectID objID ]}
                        (SetFields (bson_Marshal updatedBook));
          match r with
          | inl _ =>
              JSON StatusInternalServerError (PH [("error", AString "Error updating book")])
          | inr result =>
              if bool_decide (MatchedCount result = 0%Z)
              then JSON StatusNotFound (PH [("message", AString "Book not found")])
              else JSON StatusOK (PH [("message", AString "Book updated")])
          end
      end
  end.

(** Delete a book by ID. *)
Definition deleteBook : M unit :=
  id ← Param "id";
  match ObjectIDFromHex id with
  | inl _ => JSON StatusBadRequest (PH [("error", AString "Invalid ID")])
  | inr objID =>
      r ← DeleteOne {[ "_id" := BObjectID objID ]};
      match r with
      | inl _ =>
          JSON StatusInternalServerError (PH [("error", AString "Error deleting book")])
      | inr result =>
          if bool_decide (DeletedCount result = 0%Z)
          then JSON StatusNotFound (PH [("message", AString "Book not found")])
          else JSON StatusOK (PH [("message", AString "Book deleted")])
      end
  end.

(** ** Serving one request *)

(** The context the router hands to a handler: nothing read, nothing
    written. *)
Definition newContext (params : list (string * string)) (body : BodyText) : Context :=
  {| Params := params; Body := body; bodyRead := false; Status := None; Written := [] |}.

Definition serve (handler : M unit) (params : list (string * string))
    (body : BodyText) (st : Store) : Outcome unit :=
  handler {| ctx := newContext params body; store := st |}.

(** The state a program leaves, however it ended. *)
Definition final {A : Type} (o : Outcome A) : State :=
  match o with
  | Done _ s => s
  | Exit _ s => s
  end.

(** The response of a handler that returned: its status line and the one
    body it wrote. *)
Definition answer (o : Outcome unit) : option (Z * Payload) :=
  match o with
  | Done _ s =>
      match Status (ctx s), Written (ctx s) with
      | Some code, [obj] => Some (code, obj)
      | _, _ => None
      end
  | Exit _ _ => None
  end.

(** The document of the collection under an identifier. *)
Definition stored (id : ObjectID) (st : Store) : option Doc :=
  findFirst {[ "_id" := BObjectID id ]} (docs st).

(** ** [json.Marshal] of what the handlers write *)

Definition marshalBook (b : Book) : Result json :=
  if notFinite (Price b) then inl UnsupportedValueError
  else inr (JObject [("id", JString (Hex (ID b)));
                     ("title", JString (Title b));
                     ("author", JString (Author b));
                     ("price", JNumber (Price b))]).

Fixpoint marshalBooks (bs : list Book) : Result (list json) :=
  match bs with
  | [] => inr []
  | b :: rest =>
      match marshalBook b with
      | inl e => inl e
      | inr v =>
          match marshalBooks rest with
          | inl e => inl e
          | inr vs => inr (v :: vs)
          end
      end
  end.

Definition marshalValue (v : bval) : Result json :=
  match v with
  | BDouble f => if notFinite f then inl UnsupportedValueError else inr (JNumber f)
  | BString s => inr (JString s)
  | BObjectID id => inr (JString (Hex id))
  | BInt32 z | BInt64 z => inr (JNumber (float64_of_Z z))
  | BNull => inr JNull
  end.

Definition marshalAny (a : any) : Result json :=
  match a with
  | AString s => inr (JString s)
  | AInsertOneResult r =>
      match marshalValue (InsertedID r) with
      | inl e => inl e
      | inr v => inr (JObject [("InsertedID", v)])
      end
  end.

Fixpoint marshalH (h : H) : Result (list (string * json)) :=
  match h with
  | [] => inr []
  | (k, a) :: rest =>
      match marshalAny a with
      | inl e => inl e
      | inr v =>
          match marshalH rest with
          | inl e => inl e
          | inr vs => inr ((k, v) :: vs)
          end
      end
  end.

(** [json.Marshal(obj)]: a nil slice is [null], any other slice an array. *)
Definition Marshal (obj : Payload) : Result json :=
  match obj with
  | PH h =>
      match marshalH h with
      | inl e => inl e
      | inr members => inr (JObject members)
      end
  | PBook b => marshalBook b
  | PBooks None => inr JNull
  | PBooks (Some bs) =>
      match marshalBooks bs with
      | inl e => inl e
      | inr items => inr (JArray items)
      end
  end.

(** ** The words of the specification *)

(** The identifier format of the specification: 24 hexadecimal characters. *)
Definition hexDigits : list ascii :=
  String.list_ascii_of_string "0123456789abcdefABCDEF".

Definition wellFormedID (s : string) : Prop :=
  String.length s = 24 ∧
  Forall (λ c, c ∈ hexDigits) (String.list_ascii_of_string s).

#[global] Instance Field_eq_dec : EqDecision Field.
Proof. solve_decision. Defined.


(** The name of a field in the store, and its zero value there. *)
Definition bsonKey (f : Field) : string :=
  match f with
  | FID => "_id"
  | FTitle => "title"
  | FAuthor => "author"
  | FPrice => "price"
  end.


(** The value a [Book] has in a field, as the store would hold it. *)
Definition fieldValue (f : Field) (b : Book) : bval :=
  match f with
  | FID => BObjectID (ID b)
  | FTitle => BString (Title b)
  | FAuthor => BString (Author b)
  | FPrice => BDouble (Price b)
  end.

(** A stored document that does not decode into a [Book]. *)
Definition undecodable (d : Doc) : Prop :=
  ∃ e, bson_Unmarshal d zeroBook = inl e.

(** The path parameters of the routes [/books/:id]. *)
Definition byID (id : string) : list (string * string) := [("id", id)].

(** ** A sample library *)

Definition duneID : string := "64f1a2b3c4d5e6f708192a3b".

Definition duneOID : ObjectID :=
  Eval vm_compute in
    match ObjectIDFromHex duneID with
    | inr id => id
    | inl _ => NilObjectID
    end.

Definition nextOID : ObjectID :=
  Eval vm_compute in
    match ObjectIDFromHex "650000000000000000000001" with
    | inr id => id
    | inl _ => NilObjectID
    end.

Definition dune : Book :=
  {| ID := duneOID; Title := "Dune"; Author := "Herbert"; Price := float64_of_Z 10 |}.

(** A store that answers, holding the given documents. *)
Definition library (ds : list Doc) : Store :=
  {| docs := ds; fault := None; nextID := nextOID; trace := [] |}.

(** The same store with its connection down. *)
Definition unreachable (ds : list Doc) : Store :=
  {| docs := ds; fault := Some DeadlineExceeded; nextID := nextOID; trace := [] |}.

(** A request without a body. *)
Definition noBody : BodyText := NotJSON (SyntaxError "EOF").

(** [{"price": 12}]. *)
Definition priceOnly : BodyText := Text (JObject [("price", JNumber (float64_of_Z 12))]).

(** A document whose price is text. *)
Definition badPrice : Doc :=
  {[ "_id" := BObjectID nextOID; "title" := BString "Emma"; "price" := BString "cheap" ]}.

(** ** The collection as a whole *)

(** [c.Param("id")] for a request with these path parameters. *)
Definition pathID (params : list (string * string)) : string :=
  default "" (snd <$> List.find (λ kv, bool_decide (kv.1 = "id")) params).

(** The identifiers of a collection, document by document. *)
Definition ids (ds : list Doc) : list (option bval) :=
  (λ d : Doc, d !! "_id") <$> ds.

(** No two documents of the collection have the same [_id]. *)
Definition uniqueIDs (ds : list Doc) : Prop := NoDup (ids ds).

(** The books of a collection: every document decoded, in order. *)
Fixpoint decodeAll (ds : list Doc) : Result (list Book) :=
  match ds with
  | [] => inr []
  | d :: rest =>
      match bson_Unmarshal d zeroBook with
      | inl e => inl e
      | inr b =>
          match decodeAll rest with
          | inl e => inl e
          | inr bs => inr (b :: bs)
          end
      end
  end.

(** A list as the slice that appending its elements to nil gives. *)
Definition collected (bs : list Book) : slice Book :=
  match bs with
  | [] => None
  | _ => Some bs
  end.

(** The fields a [Book] has in the store. *)
Definition bookKeys : list string := ["_id"; "title"; "author"; "price"].

(** * Properties *)

(** ** Identifiers *)

Lemma fromHexChar_digit (c : ascii) : is_Some (fromHexChar c) ↔ c ∈ hexDigits.
Proof.
  assert (H : bool_decide (is_Some (fromHexChar c)) = bool_decide (c ∈ hexDigits)).
  { destruct c as [[] [] [] [] [] [] [] []]; vm_compute; reflexivity. }
  rewrite <- (bool_decide_spec (is_Some _)), <- (bool_decide_spec (c ∈ hexDigits)).
  by rewrite H.
Qed.

(** On an even number of characters [hex.Decode] succeeds exactly when all
    of them are hexadecimal digits. *)
Lemma hex_Decode_even (n : nat) : ∀ s, String.length s = 2 * n →
  (∃ bs, hex_Decode s = inr bs) ↔
  Forall (λ c, c ∈ hexDigits) (String.list_ascii_of_string s).
Proof.
  induction n as [|n IH]; intros s Hlen.
  - destruct s; [|discriminate]. simpl. split; [constructor|]. by exists [].
  - destruct s as [|p [|q rest]]; try (simpl in Hlen; lia).
    assert (Hrest : String.length rest = 2 * n) by (simpl in Hlen; lia).
    specialize (IH rest Hrest). cbn [hex_Decode String.list_ascii_of_string].
    rewrite !Forall_cons, <- !fromHexChar_digit, <- IH.
    destruct (fromHexChar p) as [a|];
      [|split; [intros [? [=]] | intros ([? [=]] & _)]].
    destruct (fromHexChar q) as [b|];
      [|split; [intros [? [=]] | intros (_ & [? [=]] & _)]].
    destruct (hex_Decode rest) as [e|bs];
      [split; [intros [? [=]] | intros (_ & _ & ? & [=])]|].
    split; intros _; repeat split; eauto.
Qed.

(** [ObjectIDFromHex] accepts exactly the identifiers of the specification. *)
Lemma ObjectIDFromHex_ok (s : string) :
  (∃ id, ObjectIDFromHex s = inr id) ↔ wellFormedID s.
Proof.
  unfold ObjectIDFromHex, wellFormedID. case_bool_decide as Hlen.
  - rewrite <- (hex_Decode_even 12 s) by (rewrite Hlen; reflexivity). tauto.
  - split; [intros [? [=]] | intros [? _]; done].
Qed.

Lemma ObjectIDFromHex_malformed (s : string) :
  ¬ wellFormedID s → ∃ e, ObjectIDFromHex s = inl e.
Proof.
  rewrite <- ObjectIDFromHex_ok. destruct (ObjectIDFromHex s) as [e|id]; eauto.
  intros []. eauto.
Qed.

Lemma ObjectIDFromHex_wellFormed (s : string) (id : ObjectID) :
  ObjectIDFromHex s = inr id → wellFormedID s.
Proof. intros H. apply ObjectIDFromHex_ok. eauto. Qed.

(** ** The collection *)

Lemma matches_id (v : bval) (d : Doc) :
  matches {[ "_id" := v ]} d = bool_decide (d !! "_id" = Some v).
Proof.
  unfold matches. apply bool_decide_ext.
  apply (map_Forall_singleton (λ k x, d !! k = Some x)).
Qed.

Lemma matches_all (d : Doc) : matches ∅ d = true.
Proof. unfold matches. apply bool_decide_eq_true. apply map_Forall_empty. Qed.

Lemma filter_matches_all (bs : list Doc) : List.filter (matches ∅) bs = bs.
Proof.
  induction bs as [|d bs IH]; [done|].
  cbn [List.filter]. by rewrite matches_all, IH.
Qed.

Lemma findFirst_matches (filter : Doc) (bs : list Doc) (d : Doc) :
  findFirst filter bs = Some d → matches filter d = true.
Proof. intros H. by apply List.find_some in H as [_ ?]. Qed.

Lemma stored_id (id : ObjectID) (st : Store) (d : Doc) :
  stored id st = Some d → d !! "_id" = Some (BObjectID id).
Proof.
  intros H. apply findFirst_matches in H. rewrite matches_id in H.
  by apply bool_decide_eq_true in H.
Qed.

Lemma applySet_id (fields d d' : Doc) :
  applySet fields d = inr d' → d' !! "_id" = d !! "_id".
Proof.
  unfold applySet. destruct (fields !! "_id") as [v|] eqn:Hv.
  - case_bool_decide as Hd; intros [= <-].
    rewrite Hd. by apply lookup_union_Some_l.
  - intros [= <-]. by rewrite lookup_union_r.
Qed.

Lemma applySet_lookup (fields d d' : Doc) (k : string) (v : bval) :
  applySet fields d = inr d' → fields !! k = Some v → d' !! k = Some v.
Proof.
  unfold applySet. intros H Hk.
  assert (d' = fields ∪ d) as ->.
  { destruct (fields !! "_id"); [case_bool_decide|]; congruence. }
  by apply lookup_union_Some_l.
Qed.

(** [UpdateOne] on the server, by what the filter finds. *)
Lemma updateFirst_none (filter fields : Doc) (bs : list Doc) :
  findFirst filter bs = None →
  updateFirst filter fields bs = inr ({| MatchedCount := 0; ModifiedCount := 0 |}, bs).
Proof.
  induction bs as [|d bs IH]; [done|].
  unfold findFirst. cbn [List.find updateFirst].
  destruct (matches filter d); [done|]. intros H. by rewrite (IH H).
Qed.

Lemma updateFirst_refused (filter fields : Doc) (bs : list Doc) (d : Doc) (e : error) :
  findFirst filter bs = Some d → applySet fields d = inl e →
  updateFirst filter fields bs = inl e.
Proof.
  induction bs as [|x bs IH]; [done|].
  unfold findFirst. cbn [List.find updateFirst].
  destruct (matches filter x).
  - intros [= ->] ->. done.
  - intros H He. by rewrite (IH H He).
Qed.

Lemma updateFirst_applied (filter fields : Doc) (bs : list Doc) (d d' : Doc) :
  findFirst filter bs = Some d → applySet fields d = inr d' →
  matches filter d' = true →
  ∃ r bs', updateFirst filter fields bs = inr (r, bs') ∧
           MatchedCount r = 1%Z ∧ findFirst filter bs' = Some d'.
Proof.
  induction bs as [|x bs IH]; [done|].
  unfold findFirst. cbn [List.find updateFirst].
  destruct (matches filter x) eqn:Hx.
  - intros [= ->] -> Hd'. eexists _, _. split; [done|]. split; [done|].
    cbn [List.find]. by rewrite Hd'.
  - intros H Hd Hd'. destruct (IH H Hd Hd') as (r & bs' & -> & Hr & Hf).
    eexists _, _. split; [done|]. split; [done|].
    cbn [List.find]. by rewrite Hx.
Qed.

(** [DeleteOne] on the server. *)
Lemma deleteFirst_none (filter : Doc) (bs : list Doc) :
  findFirst filter bs = None → deleteFirst filter bs = ({| DeletedCount := 0 |}, bs).
Proof.
  induction bs as [|d bs IH]; [done|].
  unfold findFirst. cbn [List.find deleteFirst].
  destruct (matches filter d); [done|]. intros H. by rewrite (IH H).
Qed.

Lemma deleteFirst_some (filter : Doc) (bs : list Doc) (d : Doc) :
  findFirst filter bs = Some d → DeletedCount (deleteFirst filter bs).1 = 1%Z.
Proof.
  induction bs as [|x bs IH]; [done|].
  unfold findFirst. cbn [List.find deleteFirst].
  destruct (matches filter x); [done|]. intros H. specialize (IH H).
  by destruct (deleteFirst filter bs).
Qed.

(** ** Running the primitives *)

Lemma serve_byID (k : string → M unit) (id : string) (body : BodyText) (st : Store) :
  serve (x ← Param "id"; k x) (byID id) body st
  = k id {| ctx := newContext (byID id) body; store := st |}.
Proof. reflexivity. Qed.

Lemma bind_Done {A B : Type} (m : M A) (k : A → M B) (s s' : State) (a : A) :
  m s = Done a s' → (x ← m; k x) s = k a s'.
Proof. unfold mbind, M_bind. by intros ->. Qed.

Lemma BindJSON_run (b : Book) (s : State) :
  BindJSON b s =
  Done (decodeJSON (Body (ctx s)) b)
       {| ctx := match decodeJSON (Body (ctx s)) b with
                 | inl _ => WriteHeader StatusBadRequest (readBody (ctx s))
                 | inr _ => readBody (ctx s)
                 end;
          store := store s |}.
Proof. unfold BindJSON. by destruct (decodeJSON (Body (ctx s)) b). Qed.

Lemma call_run {A : Type} (cmd : Command)
    (serve : list Doc → Result (A * list Doc)) (s : State) :
  call cmd serve s =
  match fault (store s) with
  | Some e => Done (inl e) {| ctx := ctx s; store := sent cmd (store s) |}
  | None =>
      match serve (docs (store s)) with
      | inl e => Done (inl e) {| ctx := ctx s; store := sent cmd (store s) |}
      | inr (a, bs) =>
          Done (inr a) {| ctx := ctx s; store := withDocs bs (sent cmd (store s)) |}
      end
  end.
Proof. reflexivity. Qed.

(** The loop of [getBooks] exits on the first document that does not
    decode, and else runs to the end of the cursor. *)
Lemma drain_fatal (cursor : list Doc) (books : slice Book) (s : State) :
  Exists undecodable cursor → drain cursor books s = Exit 1 s.
Proof.
  revert books. induction cursor as [|raw rest IH]; intros books H.
  - by apply Exists_nil in H.
  - cbn [drain]. destruct (bson_Unmarshal raw zeroBook) as [e|book] eqn:Hraw; [done|].
    apply Exists_cons in H as [[e He]|H]; [congruence|]. by apply IH.
Qed.

Lemma drain_done (cursor : list Doc) (books : slice Book) (s : State) :
  ¬ Exists undecodable cursor → ∃ books', drain cursor books s = Done books' s.
Proof.
  revert books. induction cursor as [|raw rest IH]; intros books H.
  - by exists books.
  - cbn [drain]. destruct (bson_Unmarshal raw zeroBook) as [e|book] eqn:Hraw.
    + destruct H. apply Exists_cons_hd. by exists e.
    + apply IH. intros Hrest. apply H. by apply Exists_cons_tl.
Qed.

(** ** The handlers *)

(** What [updateBook] does once the identifier has parsed. *)
Lemma updateBook_parsed (id : string) (objID : ObjectID) (body : BodyText) (st : Store) :
  ObjectIDFromHex id = inr objID →
  serve updateBook (byID id) body st =
  (bound ← BindJSON zeroBook;
   match bound with
   | inl err => JSON StatusBadRequest (PH [("error", AString (Error err))])
   | inr updatedBook =>
       r ← UpdateOne {[ "_id" := BObjectID objID ]}
                     (SetFields (bson_Marshal updatedBook));
       match r with
       | inl _ =>
           JSON StatusInternalServerError (PH [("error", AString "Error updating book")])
       | inr result =>
           if bool_decide (MatchedCount result = 0%Z)
           then JSON StatusNotFound (PH [("message", AString "Book not found")])
           else JSON StatusOK (PH [("message", AString "Book updated")])
       end
   end) {| ctx := newContext (byID id) body; store := st |}.
Proof. intros H. unfold updateBook. by rewrite serve_byID, H. Qed.

(** C2. An identifier that is not 24 hexadecimal characters makes each of
    get-by-id, update-by-id and delete-by-id answer 400 with the message
    "Invalid ID" under the key "error", and leaves the store as it was: no
    command is sent and no document changes. *)
Theorem malformed_id_rejected (id : string) (body : BodyText) (st : Store) :
  ¬ wellFormedID id →
  Forall (λ handler,
            answer (serve handler (byID id) body st)
              = Some (StatusBadRequest, PH [("error", AString "Invalid ID")]) ∧
            store (final (serve handler (byID id) body st)) = st)
         [getBookByID; updateBook; deleteBook].
Proof.
  intros H. destruct (ObjectIDFromHex_malformed id H) as [e He].
  repeat apply Forall_cons_2; [| | |apply Forall_nil_2].
  - unfold getBookByID. by rewrite serve_byID, He.
  - unfold updateBook. by rewrite serve_byID, He.
  - unfold deleteBook. by rewrite serve_byID, He.
Qed.

Lemma malformed_id_rejected_witness :
  ¬ wellFormedID "abc" ∧
  Forall (λ handler,
            answer (serve handler (byID "abc") (NotJSON (SyntaxError "EOF"))
                          (mkStore [] None NilObjectID []))
              = Some (StatusBadRequest, PH [("error", AString "Invalid ID")]) ∧
            store (final (serve handler (byID "abc") (NotJSON (SyntaxError "EOF"))
                                (mkStore [] None NilObjectID [])))
              = mkStore [] None NilObjectID [])
         [getBookByID; updateBook; deleteBook].
Proof.
  assert (H : ¬ wellFormedID "abc") by (intros [H _]; discriminate H).
  split; [exact H|]. exact (malformed_id_rejected "abc" _ _ H).
Defined.

(** C9. In update-by-id the identifier is checked before the body is looked
    at: with a malformed identifier the answer is 400 "Invalid ID" whatever
    the body is, and the body has not been read. *)
Theorem updateBook_id_before_body (id : string) (body : BodyText) (st : Store) :
  ¬ wellFormedID id →
  answer (serve updateBook (byID id) body st)
    = Some (StatusBadRequest, PH [("error", AString "Invalid ID")]) ∧
  bodyRead (ctx (final (serve updateBook (byID id) body st))) = false.
Proof.
  intros H. destruct (ObjectIDFromHex_malformed id H) as [e He].
  unfold updateBook. by rewrite serve_byID, He.
Qed.

Lemma updateBook_id_before_body_witness :
  ¬ wellFormedID "not-an-id" ∧
  answer (serve updateBook (byID "not-an-id")
                (NotJSON (SyntaxError "unexpected end of JSON input"))
                (mkStore [] None NilObjectID []))
    = Some (StatusBadRequest, PH [("error", AString "Invalid ID")]) ∧
  bodyRead (ctx (final (serve updateBook (byID "not-an-id")
                              (NotJSON (SyntaxError "unexpected end of JSON input"))
                              (mkStore [] None NilObjectID [])))) = false.
Proof.
  assert (H : ¬ wellFormedID "not-an-id") by (intros [H _]; discriminate H).
  split; [exact H|]. exact (updateBook_id_before_body _ _ _ H).
Defined.

(** C5. For a well-formed identifier, get-by-id answers 404 "Book not found"
    on every lookup that fails: the store call failing in transit, no
    document under the identifier, or a document that does not decode; the
    answers do not differ. When the document is found and decodes, the
    answer is 200 with that book. *)
Theorem getBookByID_outcomes (id : string) (body : BodyText) (st : Store) :
  wellFormedID id →
  ∃ objID, ObjectIDFromHex id = inr objID ∧
    let o := serve getBookByID (byID id) body st in
    let notFound := Some (StatusNotFound, PH [("error", AString "Book not found")]) in
    (∀ e, fault st = Some e → answer o = notFound) ∧
    (fault st = None → stored objID st = None → answer o = notFound) ∧
    (∀ d, fault st = None → stored objID st = Some d → undecodable d →
          answer o = notFound) ∧
    (∀ d book, fault st = None → stored objID st = Some d →
               bson_Unmarshal d zeroBook = inr book →
               answer o = Some (StatusOK, PBook book)).
Proof.
  intros Hwf. apply ObjectIDFromHex_ok in Hwf as [objID Hid].
  exists objID. split; [done|]. cbv zeta.
  unfold getBookByID. rewrite serve_byID, Hid.
  unfold mbind, M_bind, FindOne. rewrite call_run.
  cbn [ctx store]. fold (stored objID st).
  repeat split.
  - intros e ->. reflexivity.
  - intros -> ->. reflexivity.
  - intros d -> -> [e He]. cbn [SingleResult_Decode]. by rewrite He.
  - intros d book -> -> Hb. cbn [SingleResult_Decode]. by rewrite Hb.
Qed.

(** C6. Update-by-id answers, in this order of precedence: 400 "Invalid ID"
    for a malformed identifier; 400 with the decoder's message for a body
    that does not bind; 500 "Error updating book" when the store call fails,
    in transit or refused by the server; 404 "Book not found" when no
    document is under the identifier; and otherwise 200 with the
    acknowledgement "Book updated" and nothing of the record. *)
Theorem updateBook_outcomes (id : string) (body : BodyText) (st : Store) :
  let o := serve updateBook (byID id) body st in
  (¬ wellFormedID id →
     answer o = Some (StatusBadRequest, PH [("error", AString "Invalid ID")])) ∧
  (∀ objID, ObjectIDFromHex id = inr objID →
     (∀ err, decodeJSON body zeroBook = inl err →
        answer o = Some (StatusBadRequest, PH [("error", AString (Error err))])) ∧
     (∀ updatedBook, decodeJSON body zeroBook = inr updatedBook →
        let failed :=
          Some (StatusInternalServerError, PH [("error", AString "Error updating book")]) in
        (∀ e, fault st = Some e → answer o = failed) ∧
        (∀ d e, fault st = None → stored objID st = Some d →
                applySet (bson_Marshal updatedBook) d = inl e → answer o = failed) ∧
        (fault st = None → stored objID st = None →
           answer o = Some (StatusNotFound, PH [("message", AString "Book not found")])) ∧
        (∀ d d', fault st = None → stored objID st = Some d →
                 applySet (bson_Marshal updatedBook) d = inr d' →
           answer o = Some (StatusOK, PH [("message", AString "Book updated")])))).
Proof.
  cbv zeta. split.
  - intros H. destruct (ObjectIDFromHex_malformed id H) as [e He].
    unfold updateBook. by rewrite serve_byID, He.
  - intros objID Hid. rewrite (updateBook_parsed id objID body st Hid).
    erewrite bind_Done by apply BindJSON_run. cbn [ctx store newContext Body].
    split.
    + intros err ->. reflexivity.
    + intros updatedBook ->.
      unfold mbind, M_bind, UpdateOne. rewrite call_run. cbn [ctx store].
      repeat split.
      * intros e ->. reflexivity.
      * intros d e -> Hd He. by rewrite (updateFirst_refused _ _ _ _ _ Hd He).
      * intros -> Hd. by rewrite (updateFirst_none _ _ _ Hd).
      * intros d d' -> Hd Hd'.
        destruct (updateFirst_applied _ _ _ _ _ Hd Hd') as (r & bs' & -> & Hr & _).
        { rewrite matches_id. apply bool_decide_eq_true.
          rewrite (applySet_id _ _ _ Hd'). by apply stored_id in Hd. }
        rewrite bool_decide_eq_false_2 by (rewrite Hr; done). reflexivity.
Qed.

(** C7. Delete-by-id answers 400 "Invalid ID" for a malformed identifier,
    500 "Error deleting book" when the store call fails, 404 "Book not
    found" when no document is under the identifier, and otherwise 200 with
    the acknowledgement "Book deleted". *)
Theorem deleteBook_outcomes (id : string) (body : BodyText) (st : Store) :
  let o := serve deleteBook (byID id) body st in
  (¬ wellFormedID id →
     answer o = Some (StatusBadRequest, PH [("error", AString "Invalid ID")])) ∧
  (∀ objID, ObjectIDFromHex id = inr objID →
     (∀ e, fault st = Some e →
        answer o = Some (StatusInternalServerError,
                         PH [("error", AString "Error deleting book")])) ∧
     (fault st = None → stored objID st = None →
        answer o = Some (StatusNotFound, PH [("message", AString "Book not found")])) ∧
     (∀ d, fault st = None → stored objID st = Some d →
        answer o = Some (StatusOK, PH [("message", AString "Book deleted")]))).
Proof.
  cbv zeta. split.
  - intros H. destruct (ObjectIDFromHex_malformed id H) as [e He].
    unfold deleteBook. by rewrite serve_byID, He.
  - intros objID Hid. unfold deleteBook. rewrite serve_byID, Hid.
    unfold mbind, M_bind, DeleteOne. rewrite call_run. cbn [ctx store].
    repeat split.
    + intros e ->. reflexivity.
    + intros -> Hd. by rewrite (deleteFirst_none _ _ Hd).
    + intros d -> Hd. pose proof (deleteFirst_some _ _ _ Hd) as Hc.
      destruct (deleteFirst _ (docs st)) as [r bs']. cbn [fst] in Hc.
      rewrite bool_decide_eq_false_2 by (rewrite Hc; done). reflexivity.
Qed.

(** Every answer each by-id handler can give. *)
Lemma getBookByID_answers (id : string) (body : BodyText) (st : Store) :
  let a := answer (serve getBookByID (byID id) body st) in
  a = Some (StatusBadRequest, PH [("error", AString "Invalid ID")]) ∨
  a = Some (StatusNotFound, PH [("error", AString "Book not found")]) ∨
  ∃ book, a = Some (StatusOK, PBook book).
Proof.
  cbv zeta. unfold getBookByID. rewrite serve_byID.
  destruct (ObjectIDFromHex id) as [e|objID]; [by left|]. right.
  unfold mbind, M_bind, FindOne. rewrite call_run. cbn [ctx store].
  destruct (fault st); [by left|].
  destruct (findFirst _ (docs st)) as [d|]; [|by left].
  cbn [SingleResult_Decode].
  destruct (bson_Unmarshal d zeroBook) as [e|book]; [by left|right; by exists book].
Qed.

Lemma updateBook_answers (id : string) (body : BodyText) (st : Store) :
  let a := answer (serve updateBook (byID id) body st) in
  a = Some (StatusBadRequest, PH [("error", AString "Invalid ID")]) ∨
  (∃ err, a = Some (StatusBadRequest, PH [("error", AString (Error err))])) ∨
  a = Some (StatusInternalServerError, PH [("error", AString "Error updating book")]) ∨
  a = Some (StatusNotFound, PH [("message", AString "Book not found")]) ∨
  a = Some (StatusOK, PH [("message", AString "Book updated")]).
Proof.
  cbv zeta. destruct (ObjectIDFromHex id) as [e|objID] eqn:Hid.
  { left. unfold updateBook. by rewrite serve_byID, Hid. }
  right. rewrite (updateBook_parsed id objID body st Hid).
  erewrite bind_Done by apply BindJSON_run. cbn [ctx store newContext Body].
  destruct (decodeJSON body zeroBook) as [err|updatedBook]; [left; by exists err|].
  right. unfold mbind, M_bind, UpdateOne. rewrite call_run. cbn [ctx store].
  destruct (fault st); [by left|].
  destruct (updateFirst _ _ (docs st)) as [e|[r bs]]; [by left|]. right.
  case_bool_decide; [by left|by right].
Qed.

Lemma deleteBook_answers (id : string) (body : BodyText) (st : Store) :
  let a := answer (serve deleteBook (byID id) body st) in
  a = Some (StatusBadRequest, PH [("error", AString "Invalid ID")]) ∨
  a = Some (StatusInternalServerError, PH [("error", AString "Error deleting book")]) ∨
  a = Some (StatusNotFound, PH [("message", AString "Book not found")]) ∨
  a = Some (StatusOK, PH [("message", AString "Book deleted")]).
Proof.
  cbv zeta. unfold deleteBook. rewrite serve_byID.
  destruct (ObjectIDFromHex id) as [e|objID]; [by left|]. right.
  unfold mbind, M_bind, DeleteOne. rewrite call_run. cbn [ctx store].
  destruct (fault st); [by left|]. right.
  destruct (deleteFirst _ (docs st)) as [r bs].
  case_bool_decide; [by left|by right].
Qed.

(** C10. The 404 "Book not found" body has the message under the key
    "error" in get-by-id and under the key "message" in update-by-id and
    delete-by-id; the 200 acknowledgements of update and delete use the key
    "message" too. *)
Theorem not_found_key_by_operation (id : string) (body : BodyText) (st : Store)
    (obj : Payload) :
  (answer (serve getBookByID (byID id) body st) = Some (StatusNotFound, obj) →
     obj = PH [("error", AString "Book not found")]) ∧
  (answer (serve updateBook (byID id) body st) = Some (StatusNotFound, obj) →
     obj = PH [("message", AString "Book not found")]) ∧
  (answer (serve deleteBook (byID id) body st) = Some (StatusNotFound, obj) →
     obj = PH [("message", AString "Book not found")]) ∧
  (answer (serve updateBook (byID id) body st) = Some (StatusOK, obj) →
     obj = PH [("message", AString "Book updated")]) ∧
  (answer (serve deleteBook (byID id) body st) = Some (StatusOK, obj) →
     obj = PH [("message", AString "Book deleted")]).
Proof.
  pose proof (getBookByID_answers id body st) as Hg.
  pose proof (updateBook_answers id body st) as Hu.
  pose proof (deleteBook_answers id body st) as Hd.
  cbv zeta in Hg, Hu, Hd.
  unfold StatusOK, StatusNotFound, StatusBadRequest, StatusInternalServerError in *.
  repeat split; intros H; rewrite H in *.
  - destruct Hg as [?|[?|[? ?]]]; congruence.
  - destruct Hu as [?|[[? ?]|[?|[?|?]]]]; congruence.
  - destruct Hd as [?|[?|[?|?]]]; congruence.
  - destruct Hu as [?|[[? ?]|[?|[?|?]]]]; congruence.
  - destruct Hd as [?|[?|[?|?]]]; congruence.
Qed.

(** C8. In the list handler a stored document that does not decode ends the
    process ([os.Exit(1)]) with nothing written to the client; on every
    other path, a failing query or all documents decoding, the handler
    returns with an answer and the process goes on. *)
Theorem getBooks_fatal_on_decode_failure (params : list (string * string))
    (body : BodyText) (st : Store) :
  let o := serve getBooks params body st in
  (fault st = None → Exists undecodable (docs st) →
     ∃ s, o = Exit 1 s ∧ Status (ctx s) = None ∧ Written (ctx s) = []) ∧
  (¬ (fault st = None ∧ Exists undecodable (docs st)) →
     ∃ s, o = Done tt s ∧ is_Some (answer o)).
Proof.
  cbv zeta. unfold serve, getBooks, mbind, M_bind, Find. rewrite call_run.
  cbn [ctx store]. rewrite filter_matches_all. split.
  - intros -> H. rewrite (drain_fatal _ _ _ H).
    eexists. split; [reflexivity|done].
  - intros H. destruct (fault st) as [e|].
    + eexists. split; [reflexivity|]. by eexists.
    + assert (Hok : ¬ Exists undecodable (docs st)) by tauto.
      edestruct (drain_done (docs st) None) as [books ->]; [exact Hok|].
      eexists. split; [reflexivity|]. by eexists.
Qed.

(** C3. On an empty collection, with the query succeeding, the list handler
    answers 200 and hands [c.JSON] the nil slice it started from, which is
    written as [null]; an empty array would be the encoding of an empty,
    non-nil slice. *)
Theorem getBooks_empty_collection_is_null (params : list (string * string))
    (body : BodyText) (next : ObjectID) (tr : list Command) :
  answer (serve getBooks params body (mkStore [] None next tr))
    = Some (StatusOK, PBooks None) ∧
  Marshal (PBooks None) = inr JNull ∧
  Marshal (PBooks (Some [])) = inr (JArray []).
Proof. done. Qed.

(** ** Binding and the BSON form *)




(** [title], [author] and [price] are in the document of every [Book]. *)
Lemma bson_Marshal_field (f : Field) (b : Book) :
  f ≠ FID → bson_Marshal b !! bsonKey f = Some (fieldValue f b).
Proof.
  intros Hf. unfold bson_Marshal.
  destruct (IsZero (ID b)), f; by simplify_map_eq.
Qed.

Lemma bson_Marshal_id (b : Book) :
  bson_Marshal b !! "_id" = if IsZero (ID b) then None else Some (BObjectID (ID b)).
Proof. unfold bson_Marshal. destruct (IsZero (ID b)); by simplify_map_eq. Qed.

(** A document with an identifier, two strings and a double decodes. *)
Lemma bson_Unmarshal_fields (d : Doc) (id : ObjectID) (title author : string)
    (price : float64) :
  d !! "_id" = Some (BObjectID id) → d !! "title" = Some (BString title) →
  d !! "author" = Some (BString author) → d !! "price" = Some (BDouble price) →
  bson_Unmarshal d zeroBook = inr (mkBook id title author price).
Proof.
  intros Hid Ht Ha Hp. unfold bson_Unmarshal, decodeField.
  by rewrite Hid, Ht, Ha, Hp.
Qed.

Lemma getBookByID_found (id : string) (objID : ObjectID) (body : BodyText)
    (st : Store) (d : Doc) (book : Book) :
  ObjectIDFromHex id = inr objID → fault st = None → stored objID st = Some d →
  bson_Unmarshal d zeroBook = inr book →
  answer (serve getBookByID (byID id) body st) = Some (StatusOK, PBook book).
Proof.
  intros Hid Hf Hd Hb. unfold getBookByID. rewrite serve_byID, Hid.
  unfold mbind, M_bind, FindOne. rewrite call_run. cbn [ctx store].
  fold (stored objID st). rewrite Hf, Hd. cbn [SingleResult_Decode]. by rewrite Hb.
Qed.

(** What a 200 from update-by-id tells: the identifier parsed, the body
    bound, the store answered, and the document under the identifier is now
    the old one with the fields of the bound book written over it. *)
Lemma updateBook_ok (id : string) (body : BodyText) (st : Store) :
  let o := serve updateBook (byID id) body st in
  fst <$> answer o = Some StatusOK →
  ∃ objID updatedBook d d',
    ObjectIDFromHex id = inr objID ∧
    decodeJSON body zeroBook = inr updatedBook ∧
    stored objID st = Some d ∧
    applySet (bson_Marshal updatedBook) d = inr d' ∧
    fault (store (final o)) = None ∧
    stored objID (store (final o)) = Some d'.
Proof.
  cbv zeta. destruct (ObjectIDFromHex id) as [e|objID] eqn:Hid.
  { unfold updateBook. rewrite serve_byID, Hid. done. }
  rewrite (updateBook_parsed id objID body st Hid).
  erewrite bind_Done by apply BindJSON_run. cbn [ctx store newContext Body].
  destruct (decodeJSON body zeroBook) as [err|updatedBook] eqn:Hbody; [done|].
  unfold mbind, M_bind, UpdateOne. rewrite call_run. cbn [ctx store].
  destruct (fault st) as [e|] eqn:Hfault; [done|].
  destruct (stored objID st) as [d|] eqn:Hd; unfold stored in Hd.
  2: { by rewrite (updateFirst_none _ _ _ Hd). }
  destruct (applySet (bson_Marshal updatedBook) d) as [e|d'] eqn:Hd'.
  { by rewrite (updateFirst_refused _ _ _ _ _ Hd Hd'). }
  destruct (updateFirst_applied _ _ _ _ _ Hd Hd') as (r & bs' & -> & Hr & Hf).
  { rewrite matches_id. apply bool_decide_eq_true.
    rewrite (applySet_id _ _ _ Hd'). by apply (stored_id objID st). }
  rewrite bool_decide_eq_false_2 by (rewrite Hr; done). intros _.
  exists objID, updatedBook, d, d'. by repeat split.
Qed.


(** C4, as amended. When create answers 201, the record it has appended to
    the collection carries the identifier of the request body when the body
    has one that is not zero, and the identifier the driver generates only
    when the body has none; the answer reports that same identifier. *)
Theorem addBook_persisted_id (params : list (string * string)) (body : BodyText)
    (st : Store) (newBook : Book) :
  decodeJSON body zeroBook = inr newBook →
  let o := serve addBook params body st in
  fst <$> answer o = Some StatusCreated →
  let id := if IsZero (ID newBook) then nextID st else ID newBook in
  ∃ d, docs (store (final o)) = (docs st ++ [d])%list ∧
       d !! "_id" = Some (BObjectID id) ∧
       (∀ f, f ≠ FID → d !! bsonKey f = Some (fieldValue f newBook)) ∧
       answer o = Some (StatusCreated,
                        PH [("insertedID",
                             AInsertOneResult {| InsertedID := BObjectID id |})]).
Proof.
  intros Hbody o. subst o. cbv zeta.
  unfold serve, addBook. erewrite bind_Done by apply BindJSON_run.
  cbn [ctx store newContext Body]. rewrite Hbody.
  unfold mbind, M_bind, InsertOne. rewrite call_run. cbn [ctx store].
  destruct (fault st) as [e|]; [done|].
  case_bool_decide as Hdup; [done|]. intros _.
  rewrite bson_Marshal_id.
  eexists. split; [reflexivity|]. repeat split.
  - rewrite lookup_insert_eq. by destruct (IsZero (ID newBook)).
  - intros f Hf. rewrite lookup_insert_ne by (by destruct f).
    by apply bson_Marshal_field.
  - by destruct (IsZero (ID newBook)).
Qed.

(** C4, as stated, fails: a create request whose body carries an identifier
    is stored under that identifier, not under the generated one. *)
Lemma addBook_body_id_is_persisted :
  ¬ (∀ (body : BodyText) (st : Store) (d : Doc),
       fst <$> answer (serve addBook [] body st) = Some StatusCreated →
       last (docs (store (final (serve addBook [] body st)))) = Some d →
       d !! "_id" = Some (BObjectID (nextID st))).
Proof.
  intros H.
  specialize (H (Text (JObject [("id", JString duneID); ("title", JString "Dune")]))
                (library []) _ eq_refl eq_refl).
  vm_compute in H. discriminate H.
Qed.

(** ** Worked requests

    The properties above, applied to requests against the sample library. *)

Lemma abc_malformed : ¬ wellFormedID "abc".
Proof. intros [H _]. discriminate H. Qed.

Lemma duneID_parses : ObjectIDFromHex duneID = inr duneOID.
Proof. reflexivity. Qed.


Lemma addBook_persisted_id_witness :
  decodeJSON (Text (JObject [("id", JString duneID); ("title", JString "Dune")])) zeroBook
    = inr (mkBook duneOID "Dune" "" float64_zero) ∧
  fst <$> answer (serve addBook []
                        (Text (JObject [("id", JString duneID); ("title", JString "Dune")]))
                        (library [])) = Some StatusCreated ∧
  ∃ d, docs (store (final (serve addBook []
                        (Text (JObject [("id", JString duneID); ("title", JString "Dune")]))
                        (library [])))) = [d] ∧
       d !! "_id" = Some (BObjectID duneOID) ∧
       (∀ f, f ≠ FID → d !! bsonKey f
                        = Some (fieldValue f (mkBook duneOID "Dune" "" float64_zero))) ∧
       answer (serve addBook []
                     (Text (JObject [("id", JString duneID); ("title", JString "Dune")]))
                     (library []))
         = Some (StatusCreated,
                 PH [("insertedID", AInsertOneResult {| InsertedID := BObjectID duneOID |})]).
Proof.
  assert (H1 : decodeJSON (Text (JObject [("id", JString duneID); ("title", JString "Dune")]))
                 zeroBook = inr (mkBook duneOID "Dune" "" float64_zero)) by reflexivity.
  assert (H2 : fst <$> answer (serve addBook []
                        (Text (JObject [("id", JString duneID); ("title", JString "Dune")]))
                        (library [])) = Some StatusCreated) by (vm_compute; reflexivity).
  split; [exact H1|]. split; [exact H2|].
  exact (addBook_persisted_id [] _ (library []) _ H1 H2).
Defined.

Lemma getBookByID_outcomes_witness :
  wellFormedID duneID ∧
  answer (serve getBookByID (byID duneID) noBody (unreachable [bson_Marshal dune]))
    = Some (StatusNotFound, PH [("error", AString "Book not found")]) ∧
  answer (serve getBookByID (byID duneID) noBody (library []))
    = Some (StatusNotFound, PH [("error", AString "Book not found")]) ∧
  answer (serve getBookByID (byID duneID) noBody
                (library [<["_id" := BObjectID duneOID]> badPrice]))
    = Some (StatusNotFound, PH [("error", AString "Book not found")]) ∧
  answer (serve getBookByID (byID duneID) noBody (library [bson_Marshal dune]))
    = Some (StatusOK, PBook dune).
Proof.
  assert (Hwf : wellFormedID duneID) by exact (ObjectIDFromHex_wellFormed _ _ duneID_parses).
  split; [exact Hwf|].
  split; [|split; [|split]].
  - destruct (getBookByID_outcomes duneID noBody (unreachable [bson_Marshal dune]) Hwf)
      as (objID & _ & H & _).
    exact (H DeadlineExceeded eq_refl).
  - destruct (getBookByID_outcomes duneID noBody (library []) Hwf)
      as (objID & _ & _ & H & _).
    exact (H eq_refl eq_refl).
  - destruct (getBookByID_outcomes duneID noBody
                (library [<["_id" := BObjectID duneOID]> badPrice]) Hwf)
      as (objID & Hid & _ & _ & H & _).
    rewrite duneID_parses in Hid. injection Hid as <-.
    apply (H (<["_id" := BObjectID duneOID]> badPrice) eq_refl).
    + vm_compute. reflexivity.
    + exists (ErrDecodeValue "price"). vm_compute. reflexivity.
  - destruct (getBookByID_outcomes duneID noBody (library [bson_Marshal dune]) Hwf)
      as (objID & Hid & _ & _ & _ & H).
    rewrite duneID_parses in Hid. injection Hid as <-.
    apply (H (bson_Marshal dune) dune eq_refl); vm_compute; reflexivity.
Defined.

Lemma updateBook_outcomes_witness :
  answer (serve updateBook (byID "abc") priceOnly (library [bson_Marshal dune]))
    = Some (StatusBadRequest, PH [("error", AString "Invalid ID")]) ∧
  answer (serve updateBook (byID duneID) noBody (library [bson_Marshal dune]))
    = Some (StatusBadRequest, PH [("error", AString "EOF")]) ∧
  answer (serve updateBook (byID duneID) priceOnly (unreachable [bson_Marshal dune]))
    = Some (StatusInternalServerError, PH [("error", AString "Error updating book")]) ∧
  answer (serve updateBook (byID duneID) priceOnly (library []))
    = Some (StatusNotFound, PH [("message", AString "Book not found")]) ∧
  answer (serve updateBook (byID duneID) priceOnly (library [bson_Marshal dune]))
    = Some (StatusOK, PH [("message", AString "Book updated")]).
Proof.
  split; [|split; [|split; [|split]]].
  - exact (proj1 (updateBook_outcomes "abc" priceOnly (library [bson_Marshal dune]))
                 abc_malformed).
  - destruct (updateBook_outcomes duneID noBody (library [bson_Marshal dune]))
      as [_ H]. destruct (H duneOID duneID_parses) as [Hbad _].
    exact (Hbad (SyntaxError "EOF") eq_refl).
  - destruct (updateBook_outcomes duneID priceOnly (unreachable [bson_Marshal dune]))
      as [_ H]. destruct (H duneOID duneID_parses) as [_ Hok].
    destruct (Hok _ eq_refl) as [Hfault _]. exact (Hfault DeadlineExceeded eq_refl).
  - destruct (updateBook_outcomes duneID priceOnly (library [])) as [_ H].
    destruct (H duneOID duneID_parses) as [_ Hok].
    destruct (Hok _ eq_refl) as (_ & _ & Hmiss & _). exact (Hmiss eq_refl eq_refl).
  - destruct (updateBook_outcomes duneID priceOnly (library [bson_Marshal dune]))
      as [_ H]. destruct (H duneOID duneID_parses) as [_ Hok].
    destruct (Hok _ eq_refl) as (_ & _ & _ & Hhit).
    eapply (Hhit (bson_Marshal dune)); [reflexivity| |]; vm_compute; reflexivity.
Defined.

Lemma deleteBook_outcomes_witness :
  answer (serve deleteBook (byID "abc") noBody (library [bson_Marshal dune]))
    = Some (StatusBadRequest, PH [("error", AString "Invalid ID")]) ∧
  answer (serve deleteBook (byID duneID) noBody (unreachable [bson_Marshal dune]))
    = Some (StatusInternalServerError, PH [("error", AString "Error deleting book")]) ∧
  answer (serve deleteBook (byID duneID) noBody (library []))
    = Some (StatusNotFound, PH [("message", AString "Book not found")]) ∧
  answer (serve deleteBook (byID duneID) noBody (library [bson_Marshal dune]))
    = Some (StatusOK, PH [("message", AString "Book deleted")]).
Proof.
  split; [|split; [|split]].
  - exact (proj1 (deleteBook_outcomes "abc" noBody (library [bson_Marshal dune]))
                 abc_malformed).
  - destruct (deleteBook_outcomes duneID noBody (unreachable [bson_Marshal dune]))
      as [_ H]. destruct (H duneOID duneID_parses) as [Hfault _].
    exact (Hfault DeadlineExceeded eq_refl).
  - destruct (deleteBook_outcomes duneID noBody (library [])) as [_ H].
    destruct (H duneOID duneID_parses) as (_ & Hmiss & _). exact (Hmiss eq_refl eq_refl).
  - destruct (deleteBook_outcomes duneID noBody (library [bson_Marshal dune]))
      as [_ H]. destruct (H duneOID duneID_parses) as (_ & _ & Hhit).
    apply (Hhit (bson_Marshal dune) eq_refl). vm_compute. reflexivity.
Defined.

Lemma not_found_key_by_operation_witness :
  (answer (serve getBookByID (byID duneID) priceOnly (library []))
     = Some (StatusNotFound, PH [("error", AString "Book not found")]) ∧
   answer (serve updateBook (byID duneID) priceOnly (library []))
     = Some (StatusNotFound, PH [("message", AString "Book not found")]) ∧
   answer (serve deleteBook (byID duneID) priceOnly (library []))
     = Some (StatusNotFound, PH [("message", AString "Book not found")])) ∧
  PH [("error", AString "Book not found")] = PH [("error", AString "Book not found")] ∧
  PH [("message", AString "Book not found")] = PH [("message", AString "Book not found")].
Proof.
  assert (Hg : answer (serve getBookByID (byID duneID) priceOnly (library []))
                 = Some (StatusNotFound, PH [("error", AString "Book not found")]))
    by reflexivity.
  assert (Hu : answer (serve updateBook (byID duneID) priceOnly (library []))
                 = Some (StatusNotFound, PH [("message", AString "Book not found")]))
    by reflexivity.
  assert (Hd : answer (serve deleteBook (byID duneID) priceOnly (library []))
                 = Some (StatusNotFound, PH [("message", AString "Book not found")]))
    by reflexivity.
  split; [by repeat split|]. split.
  - exact (proj1 (not_found_key_by_operation duneID priceOnly (library []) _) Hg).
  - exact (proj1 (proj2 (not_found_key_by_operation duneID priceOnly (library []) _)) Hu).
Defined.

Lemma getBooks_fatal_on_decode_failure_witness :
  (∃ s, serve getBooks [] noBody (library [bson_Marshal dune; badPrice]) = Exit 1 s ∧
        Status (ctx s) = None ∧ Written (ctx s) = []) ∧
  (∃ s, serve getBooks [] noBody (library [bson_Marshal dune]) = Done tt s ∧
        is_Some (answer (serve getBooks [] noBody (library [bson_Marshal dune])))) ∧
  (∃ s, serve getBooks [] noBody (unreachable [badPrice]) = Done tt s ∧
        is_Some (answer (serve getBooks [] noBody (unreachable [badPrice])))).
Proof.
  assert (Hbad : undecodable badPrice).
  { exists (ErrDecodeValue "price"). vm_compute. reflexivity. }
  split; [|split].
  - apply (proj1 (getBooks_fatal_on_decode_failure [] noBody
                    (library [bson_Marshal dune; badPrice]))); [reflexivity|].
    apply Exists_cons_tl, Exists_cons_hd, Hbad.
  - apply (proj2 (getBooks_fatal_on_decode_failure [] noBody (library [bson_Marshal dune]))).
    intros [_ H]. apply Exists_cons in H as [[e He]|H]; [|by apply Exists_nil in H].
    vm_compute in He. discriminate He.
  - apply (proj2 (getBooks_fatal_on_decode_failure [] noBody (unreachable [badPrice]))).
    intros [H _]. discriminate H.
Defined.

(** * Further properties *)

(** ** Identifiers, there and back *)

Lemma hexdigit_byte (b : byte) :
  fromHexChar (hexdigit (Byte.to_N b / 16)) = Some (Byte.to_N b / 16)%N ∧
  fromHexChar (hexdigit (Byte.to_N b mod 16)) = Some (Byte.to_N b mod 16)%N ∧
  mkbyte (Byte.to_N b / 16) (Byte.to_N b mod 16) = b.
Proof. destruct b; vm_compute; done. Qed.

Lemma hex_Decode_Hex (bs : list byte) : hex_Decode (Hex bs) = inr bs.
Proof.
  induction bs as [|b bs IH]; [done|].
  destruct (hexdigit_byte b) as (Hhi & Hlo & Hb).
  cbn [Hex hex_Decode]. by rewrite Hhi, Hlo, IH, Hb.
Qed.

Lemma length_Hex (bs : list byte) : String.length (Hex bs) = 2 * length bs.
Proof. induction bs as [|b bs IH]; [done|]. cbn [Hex String.length length]. lia. Qed.

Lemma hex_Decode_length (bs : list byte) : ∀ s,
  hex_Decode s = inr bs → String.length s = 2 * length bs.
Proof.
  induction bs as [|b bs IH]; intros [|p [|q rest]]; cbn [hex_Decode]; try done.
  - by destruct (fromHexChar p).
  - destruct (fromHexChar p), (fromHexChar q); try done.
    by destruct (hex_Decode rest).
  - by destruct (fromHexChar p).
  - destruct (fromHexChar p), (fromHexChar q); try done.
    destruct (hex_Decode rest) as [|bs'] eqn:Hrest; [done|].
    intros [= _ ->]. cbn [String.length length]. rewrite (IH rest Hrest). lia.
Qed.

Lemma ObjectIDFromHex_length (s : string) (id : ObjectID) :
  ObjectIDFromHex s = inr id → length id = 12.
Proof.
  unfold ObjectIDFromHex. case_bool_decide as Hlen; [|done].
  intros H%hex_Decode_length. lia.
Qed.

Lemma ObjectIDFromHex_Hex (id : ObjectID) :
  length id = 12 → ObjectIDFromHex (Hex id) = inr id.
Proof.
  intros Hlen. unfold ObjectIDFromHex.
  rewrite bool_decide_eq_true_2 by (rewrite length_Hex; lia).
  apply hex_Decode_Hex.
Qed.

Lemma ObjectID_UnmarshalJSON_length (id id' : ObjectID) (v : json) :
  length id = 12 → ObjectID_UnmarshalJSON id v = inr id' → length id' = 12.
Proof.
  intros Hid. 
  assert (Hparse : ∀ str,
    (if bool_decide (String.length str = 0) then inr NilObjectID
     else if bool_decide (String.length str = 24) then hex_Decode str
     else inl (ErrObjectIDLength (String.length str))) = inr id' → length id' = 12).
  { intros str. repeat case_bool_decide; try done.
    - by intros [= <-].
    - intros Hd%hex_Decode_length. lia. }
  destruct v as [| | |str| |m]; cbn [ObjectID_UnmarshalJSON]; try done.
  - by intros [= <-].
  - apply Hparse.
  - destruct (lastMember "$oid" m) as [[| | |str| |]|]; try done. apply Hparse.
Qed.

Lemma storeField_ID_length (f : Field) (v : json) (st st' : Book * option error) :
  length (ID st.1) = 12 → storeField f v st = inr st' → length (ID st'.1) = 12.
Proof.
  destruct st as [b saved]. cbn [fst]. intros Hlen H.
  destruct f; cbn [storeField] in H.
  - destruct (ObjectID_UnmarshalJSON (ID b) v) as [|id'] eqn:Hv; [done|].
    injection H as <-. apply (ObjectID_UnmarshalJSON_length _ _ _ Hlen Hv).
  - destruct v; by injection H as <-.
  - destruct v; by injection H as <-.
  - destruct v as [| |x| | |]; try destruct (notFinite x); by injection H as <-.
Qed.

Lemma object_ID_length (members : list (string * json)) (st st' : Book * option error) :
  length (ID st.1) = 12 → object members st = inr st' → length (ID st'.1) = 12.
Proof.
  revert st. induction members as [|[key v] rest IH]; intros st Hlen H.
  - by injection H as <-.
  - cbn [object] in H. destruct (fieldByName key) as [f|]; [|by apply (IH st)].
    destruct (storeField f v st) as [|st1] eqn:Hst; [done|].
    apply (IH st1); [|done]. apply (storeField_ID_length f v st st1 Hlen Hst).
Qed.

(** A bound [Book] has a twelve byte identifier, as its type says. *)
Lemma decodeJSON_ID_length (body : BodyText) (b : Book) :
  decodeJSON body zeroBook = inr b → length (ID b) = 12.
Proof.
  destruct body as [err|v]; [done|]. cbn [decodeJSON].
  destruct v as [| | | | |members]; cbn [json_Unmarshal]; try done.
  - by intros [= <-].
  - destruct (object members (zeroBook, None)) as [|[b1 [e|]]] eqn:Hobj; [done..|].
    intros [= <-]. by apply (object_ID_length members (zeroBook, None) (b1, None)).
Qed.

(** ** Create and list *)

Lemma serve_Param (k : string → M unit) (params : list (string * string))
    (body : BodyText) (st : Store) :
  serve (x ← Param "id"; k x) params body st
  = k (pathID params) {| ctx := newContext params body; store := st |}.
Proof. reflexivity. Qed.

Lemma store_JSON (code : Z) (obj : Payload) (s : State) :
  store (final (JSON code obj s)) = store s.
Proof. reflexivity. Qed.


Lemma foldl_append_Some (l bs : list Book) :
  foldl append (Some l) bs = Some (l ++ bs)%list.
Proof.
  revert l. induction bs as [|b bs IH]; intros l; cbn [foldl].
  - by rewrite app_nil_r.
  - unfold append at 2. cbn [default]. rewrite IH. by rewrite <- app_assoc.
Qed.

Lemma foldl_append_nil (bs : list Book) : foldl append None bs = collected bs.
Proof. destruct bs as [|b bs]; [done|]. cbn [foldl]. apply foldl_append_Some. Qed.

(** The loop of [getBooks] gathers the books in the order of the cursor. *)
Lemma drain_collect (cursor : list Doc) (bs : list Book) (acc : slice Book) (s : State) :
  decodeAll cursor = inr bs → drain cursor acc s = Done (foldl append acc bs) s.
Proof.
  revert bs acc. induction cursor as [|raw rest IH]; intros bs acc; cbn [decodeAll drain].
  - by intros [= <-].
  - destruct (bson_Unmarshal raw zeroBook) as [|b]; [done|].
    destruct (decodeAll rest) as [|bs']; [done|]. intros [= <-].
    apply (IH bs' (append acc b) eq_refl).
Qed.

Lemma drain_final (cursor : list Doc) (acc : slice Book) (s : State) :
  final (drain cursor acc s) = s.
Proof.
  revert acc. induction cursor as [|raw rest IH]; intros acc; cbn [drain]; [done|].
  by destruct (bson_Unmarshal raw zeroBook).
Qed.

(** X2. The list handler answers 500 "Error retrieving books" when the
    query fails, and 200 with every document of the collection decoded, in
    the order of the collection, when all of them decode; the slice it hands
    over is nil exactly when the collection is empty. *)
Theorem getBooks_outcomes (params : list (string * string)) (body : BodyText)
    (st : Store) :
  let o := serve getBooks params body st in
  (∀ e, fault st = Some e →
     answer o = Some (StatusInternalServerError,
                      PH [("error", AString "Error retrieving books")])) ∧
  (∀ bs, fault st = None → decodeAll (docs st) = inr bs →
     answer o = Some (StatusOK, PBooks (collected bs)) ∧
     (collected bs = None ↔ docs st = [])).
Proof.
  cbv zeta. unfold serve, getBooks, mbind, M_bind, Find. rewrite call_run.
  cbn [ctx store]. rewrite filter_matches_all. split.
  - by intros e ->.
  - intros bs -> Hbs. rewrite (drain_collect _ _ _ _ Hbs), foldl_append_nil.
    split; [done|].
    destruct (docs st) as [|d ds]; cbn [decodeAll] in Hbs.
    + by injection Hbs as <-.
    + destruct (bson_Unmarshal d zeroBook); [done|].
      destruct (decodeAll ds); [done|]. by injection Hbs as <-.
Qed.

(** ** What a request does to the store *)

Lemma getBooks_store (params : list (string * string)) (body : BodyText) (st : Store) :
  store (final (serve getBooks params body st)) = sent (CmdFind ∅) st.
Proof.
  unfold serve, getBooks, mbind, M_bind, Find. rewrite call_run. cbn [ctx store].
  destruct st as [ds [e|] next tr]; cbn [fault docs]; [done|].
  match goal with |- context [drain ?c ?a ?s] =>
    pose proof (drain_final c a s) as Hs; destruct (drain c a s) end;
    cbn [final] in Hs; by subst.
Qed.

Lemma getBookByID_store (params : list (string * string)) (body : BodyText) (st : Store) :
  store (final (serve getBookByID params body st)) = st ∨
  ∃ objID, store (final (serve getBookByID params body st))
           = sent (CmdFindOne {[ "_id" := BObjectID objID ]}) st.
Proof.
  unfold getBookByID. rewrite serve_Param.
  destruct (ObjectIDFromHex (pathID params)) as [e|objID]; [by left|].
  right. exists objID.
  unfold mbind, M_bind, FindOne. rewrite call_run. cbn [ctx store].
  destruct st as [ds [e|] next tr]; cbn [fault docs]; [done|].
  destruct (findFirst _ ds) as [d|]; [|done].
  cbn [SingleResult_Decode]. by destruct (bson_Unmarshal d zeroBook).
Qed.

(** X3. The two reading handlers never change the collection, whatever the
    request and however they end; the list handler sends the one query
    [Find] with the empty filter. *)
Theorem reads_leave_collection (params : list (string * string)) (body : BodyText)
    (st : Store) :
  docs (store (final (serve getBooks params body st))) = docs st ∧
  trace (store (final (serve getBooks params body st))) = (trace st ++ [CmdFind ∅])%list ∧
  docs (store (final (serve getBookByID params body st))) = docs st.
Proof.
  rewrite getBooks_store. split; [done|]. split; [done|].
  by destruct (getBookByID_store params body st) as [->|[objID ->]].
Qed.

Lemma addBook_store (params : list (string * string)) (body : BodyText) (st : Store) :
  let st' := store (final (serve addBook params body st)) in
  st' = st ∨
  ∃ d, (st' = sent (CmdInsertOne d) st ∨
        (st' = withDocs (docs st ++ [d]) (sent (CmdInsertOne d) st) ∧
         ¬ Exists (λ x : Doc, x !! "_id" = d !! "_id") (docs st))).
Proof.
  cbv zeta. unfold serve, addBook. erewrite bind_Done by apply BindJSON_run.
  cbn [ctx store newContext Body].
  destruct (decodeJSON body zeroBook) as [err|newBook].
  { left. rewrite store_JSON. by destruct st. }
  right. unfold mbind, M_bind, InsertOne. rewrite call_run. cbn [ctx store].
  eexists. destruct (fault st) as [e|]; [by left|].
  case_bool_decide as Hdup; [by left|]. right. split; [done|].
  by rewrite lookup_insert_eq.
Qed.

Lemma updateBook_store (params : list (string * string)) (body : BodyText) (st : Store) :
  let st' := store (final (serve updateBook params body st)) in
  st' = st ∨
  ∃ objID fields,
    let filter : Doc := {[ "_id" := BObjectID objID ]} in
    st' = sent (CmdUpdateOne filter (SetFields fields)) st ∨
    ∃ r bs, updateFirst filter fields (docs st) = inr (r, bs) ∧
            st' = withDocs bs (sent (CmdUpdateOne filter (SetFields fields)) st).
Proof.
  cbv zeta. unfold updateBook. rewrite serve_Param.
  destruct (ObjectIDFromHex (pathID params)) as [e|objID]; [by left|].
  erewrite bind_Done by apply BindJSON_run. cbn [ctx store newContext Body].
  destruct (decodeJSON body zeroBook) as [err|updatedBook].
  { left. rewrite store_JSON. by destruct st. }
  right. exists objID, (bson_Marshal updatedBook).
  unfold mbind, M_bind, UpdateOne. rewrite call_run. cbn [ctx store].
  destruct (fault st) as [e|]; [by left|].
  destruct (updateFirst _ _ (docs st)) as [e|[r bs]]; [by left|].
  right. exists r, bs. split; [done|]. by case_bool_decide.
Qed.

Lemma deleteBook_store (params : list (string * string)) (body : BodyText) (st : Store) :
  let st' := store (final (serve deleteBook params body st)) in
  st' = st ∨
  ∃ objID,
    let filter : Doc := {[ "_id" := BObjectID objID ]} in
    st' = sent (CmdDeleteOne filter) st ∨
    st' = withDocs (deleteFirst filter (docs st)).2 (sent (CmdDeleteOne filter) st).
Proof.
  cbv zeta. unfold deleteBook. rewrite serve_Param.
  destruct (ObjectIDFromHex (pathID params)) as [e|objID]; [by left|].
  right. exists objID.
  unfold mbind, M_bind, DeleteOne. rewrite call_run. cbn [ctx store].
  destruct (fault st) as [e|]; [by left|]. right.
  destruct (deleteFirst _ (docs st)) as [r bs]. by case_bool_decide.
Qed.

(** X4. No request makes more than one call to the store: each of the five
    handlers leaves the list of commands sent as it was or one longer. *)
Theorem at_most_one_store_call (params : list (string * string)) (body : BodyText)
    (st : Store) :
  Forall (λ handler,
            ∃ cmds, trace (store (final (serve handler params body st)))
                      = (trace st ++ cmds)%list ∧ (length cmds ≤ 1)%nat)
         [getBooks; getBookByID; addBook; updateBook; deleteBook].
Proof.
  assert (Hnone : ∃ cmds, trace st = (trace st ++ cmds)%list ∧ (length cmds ≤ 1)%nat).
  { exists []. split; [by rewrite app_nil_r | cbn; lia]. }
  assert (Hone : ∀ cmd bs, ∃ cmds,
            trace (sent cmd st) = (trace st ++ cmds)%list ∧ (length cmds ≤ 1)%nat ∧
            trace (withDocs bs (sent cmd st)) = (trace st ++ cmds)%list).
  { intros cmd bs. exists [cmd]. repeat split; cbn; lia. }
  repeat apply Forall_cons_2; [| | | | |apply Forall_nil_2].
  - rewrite getBooks_store. destruct (Hone (CmdFind ∅) []) as (cmds & ? & ? & _). eauto.
  - destruct (getBookByID_store params body st) as [->|[objID ->]]; [done|].
    destruct (Hone (CmdFindOne {[ "_id" := BObjectID objID ]}) []) as (cmds & ? & ? & _). eauto.
  - destruct (addBook_store params body st) as [->|[d [->|[-> _]]]]; [done| |].
    + destruct (Hone (CmdInsertOne d) []) as (cmds & ? & ? & _). eauto.
    + destruct (Hone (CmdInsertOne d) (docs st ++ [d])%list) as (cmds & _ & ? & ?). eauto.
  - destruct (updateBook_store params body st)
      as [->|(objID & fields & [->|(r & bs & _ & ->)])]; [done| |].
    + destruct (Hone (CmdUpdateOne {[ "_id" := BObjectID objID ]} (SetFields fields)) [])
        as (cmds & ? & ? & _). eauto.
    + destruct (Hone (CmdUpdateOne {[ "_id" := BObjectID objID ]} (SetFields fields)) bs)
        as (cmds & _ & ? & ?). eauto.
  - destruct (deleteBook_store params body st) as [->|(objID & [->| ->])]; [done| |].
    + destruct (Hone (CmdDeleteOne {[ "_id" := BObjectID objID ]}) []) as (cmds & ? & ? & _). eauto.
    + destruct (Hone (CmdDeleteOne {[ "_id" := BObjectID objID ]})
                  (deleteFirst {[ "_id" := BObjectID objID ]} (docs st)).2)
        as (cmds & _ & ? & ?). eauto.
Qed.

(** ** The identifiers of the collection *)

Lemma updateFirst_ids (filter fields : Doc) (bs bs' : list Doc) (r : UpdateResult) :
  updateFirst filter fields bs = inr (r, bs') → ids bs' = ids bs.
Proof.
  revert r bs'. induction bs as [|x bs IH]; intros r bs'; cbn [updateFirst].
  - by intros [= _ <-].
  - destruct (matches filter x).
    + destruct (applySet fields x) as [|x'] eqn:Hx; [done|]. intros [= _ <-].
      unfold ids. cbn [fmap list_fmap]. by rewrite (applySet_id _ _ _ Hx).
    + destruct (updateFirst filter fields bs) as [|[r0 rest]]; [done|].
      intros [= _ <-]. unfold ids in *. cbn [fmap list_fmap]. by rewrite (IH r0 rest).
Qed.

Lemma deleteFirst_ids (filter : Doc) (bs : list Doc) :
  ids (deleteFirst filter bs).2 `sublist_of` ids bs.
Proof.
  induction bs as [|x bs IH]; [done|]. cbn [deleteFirst].
  destruct (matches filter x).
  - by apply sublist_cons.
  - destruct (deleteFirst filter bs) as [r rest]. by apply sublist_skip.
Qed.

Lemma deleteFirst_length (filter : Doc) (bs : list Doc) (d : Doc) :
  findFirst filter bs = Some d → S (length (deleteFirst filter bs).2) = length bs.
Proof.
  induction bs as [|x bs IH]; [done|].
  unfold findFirst. cbn [List.find deleteFirst].
  destruct (matches filter x); [done|]. intros H. specialize (IH H).
  destruct (deleteFirst filter bs) as [r rest]. cbn [snd length] in *. lia.
Qed.

Lemma findFirst_absent (v : bval) (bs : list Doc) :
  Some v ∉ ids bs → findFirst {[ "_id" := v ]} bs = None.
Proof.
  induction bs as [|x bs IH]; [done|]. unfold ids. cbn [fmap list_fmap].
  rewrite not_elem_of_cons. intros [Hx Hbs].
  unfold findFirst. cbn [List.find]. rewrite matches_id.
  rewrite bool_decide_eq_false_2 by congruence. by apply IH.
Qed.

(** With identifiers unique, the document [DeleteOne] removes was the only
    one under its identifier. *)
Lemma deleteFirst_gone (v : bval) (bs : list Doc) (d : Doc) :
  uniqueIDs bs → findFirst {[ "_id" := v ]} bs = Some d →
  findFirst {[ "_id" := v ]} (deleteFirst {[ "_id" := v ]} bs).2 = None.
Proof.
  unfold uniqueIDs. induction bs as [|x bs IH]; [done|].
  unfold ids. cbn [fmap list_fmap]. rewrite NoDup_cons. intros [Hx Hbs].
  unfold findFirst. cbn [List.find deleteFirst]. rewrite matches_id.
  case_bool_decide as Hv.
  - intros _. cbn [snd]. apply findFirst_absent. by rewrite <- Hv.
  - intros H. specialize (IH Hbs H).
    destruct (deleteFirst _ bs) as [r rest]. cbn [snd] in *.
    unfold findFirst in *. cbn [List.find]. rewrite matches_id.
    by rewrite bool_decide_eq_false_2.
Qed.

(** X5. Unique identifiers are an invariant of the five handlers: when no
    two documents of the collection share an [_id] before a request, none do
    after it. *)
Theorem uniqueIDs_invariant (params : list (string * string)) (body : BodyText)
    (st : Store) :
  uniqueIDs (docs st) →
  Forall (λ handler, uniqueIDs (docs (store (final (serve handler params body st)))))
         [getBooks; getBookByID; addBook; updateBook; deleteBook].
Proof.
  intros Huniq. repeat apply Forall_cons_2; [| | | | |apply Forall_nil_2].
  - by rewrite getBooks_store.
  - by destruct (getBookByID_store params body st) as [->|[objID ->]].
  - destruct (addBook_store params body st) as [->|[d [->|[-> Hnew]]]]; [done..|].
    cbn [docs withDocs]. unfold uniqueIDs, ids in *. rewrite fmap_app.
    apply NoDup_app. split; [done|]. split; [|apply NoDup_singleton].
    intros x Hx ->%list_elem_of_singleton. apply Hnew.
    apply list_elem_of_fmap in Hx as (y & Hy & Hin).
    apply Exists_exists. by exists y.
  - destruct (updateBook_store params body st)
      as [->|(objID & fields & [->|(r & bs & Hbs & ->)])]; [done..|].
    cbn [docs withDocs]. unfold uniqueIDs. by rewrite (updateFirst_ids _ _ _ _ _ Hbs).
  - destruct (deleteBook_store params body st) as [->|(objID & [->| ->])]; [done..|].
    cbn [docs withDocs]. unfold uniqueIDs in *.
    eapply sublist_NoDup; [exact Huniq|apply deleteFirst_ids].
Qed.

Lemma uniqueIDs_invariant_witness :
  uniqueIDs (docs (library [bson_Marshal dune; badPrice])) ∧
  Forall (λ handler,
            uniqueIDs (docs (store (final (serve handler (byID duneID) priceOnly
                                                 (library [bson_Marshal dune; badPrice]))))))
         [getBooks; getBookByID; addBook; updateBook; deleteBook].
Proof.
  assert (H : uniqueIDs (docs (library [bson_Marshal dune; badPrice]))).
  { unfold uniqueIDs. apply (bool_decide_unpack _). vm_compute. exact I. }
  split; [exact H|]. exact (uniqueIDs_invariant _ _ _ H).
Defined.

(** ** Requests one after another *)

Lemma getBookByID_missing (id : string) (objID : ObjectID) (body : BodyText) (st : Store) :
  ObjectIDFromHex id = inr objID → fault st = None → stored objID st = None →
  answer (serve getBookByID (byID id) body st)
    = Some (StatusNotFound, PH [("error", AString "Book not found")]).
Proof.
  intros Hid Hf Hd. unfold getBookByID. rewrite serve_byID, Hid.
  unfold mbind, M_bind, FindOne. rewrite call_run. cbn [ctx store].
  fold (stored objID st). by rewrite Hf, Hd.
Qed.

Lemma deleteBook_missing (id : string) (objID : ObjectID) (body : BodyText) (st : Store) :
  ObjectIDFromHex id = inr objID → fault st = None → stored objID st = None →
  answer (serve deleteBook (byID id) body st)
    = Some (StatusNotFound, PH [("message", AString "Book not found")]).
Proof.
  intros Hid Hf Hd. unfold deleteBook. rewrite serve_byID, Hid.
  unfold mbind, M_bind, DeleteOne. rewrite call_run. cbn [ctx store].
  by rewrite Hf, (deleteFirst_none _ _ Hd).
Qed.

(** What a 200 from delete-by-id tells. *)
Lemma deleteBook_ok (id : string) (body : BodyText) (st : Store) :
  let o := serve deleteBook (byID id) body st in
  fst <$> answer o = Some StatusOK →
  ∃ objID d,
    ObjectIDFromHex id = inr objID ∧ fault st = None ∧ stored objID st = Some d ∧
    store (final o)
      = withDocs (deleteFirst {[ "_id" := BObjectID objID ]} (docs st)).2
                 (sent (CmdDeleteOne {[ "_id" := BObjectID objID ]}) st).
Proof.
  cbv zeta. unfold deleteBook. rewrite serve_byID.
  destruct (ObjectIDFromHex id) as [e|objID]; [done|].
  unfold mbind, M_bind, DeleteOne. rewrite call_run. cbn [ctx store].
  destruct (fault st) as [e|] eqn:Hfault; [done|].
  destruct (stored objID st) as [d|] eqn:Hd; unfold stored in Hd.
  2: { by rewrite (deleteFirst_none _ _ Hd). }
  destruct (deleteFirst _ (docs st)) as [r bs] eqn:Hdel. case_bool_decide; [done|].
  intros _. exists objID, d. split; [done|]. split; [done|]. split; [done|].
  rewrite store_JSON. cbn [store]. f_equal. symmetry. exact (f_equal snd Hdel).
Qed.

(** X6. With identifiers unique, a book deleted with a 200 is gone: the
    collection is one document shorter, and asking for the same identifier
    again, with get-by-id or delete-by-id, is answered 404. *)
Theorem deleted_book_is_gone (id : string) (body body' : BodyText) (st : Store) :
  uniqueIDs (docs st) →
  let st' := store (final (serve deleteBook (byID id) body st)) in
  fst <$> answer (serve deleteBook (byID id) body st) = Some StatusOK →
  S (length (docs st')) = length (docs st) ∧
  answer (serve getBookByID (byID id) body' st')
    = Some (StatusNotFound, PH [("error", AString "Book not found")]) ∧
  answer (serve deleteBook (byID id) body' st')
    = Some (StatusNotFound, PH [("message", AString "Book not found")]).
Proof.
  intros Huniq st' Hok. subst st'.
  destruct (deleteBook_ok id body st Hok) as (objID & d & Hid & Hfault & Hd & ->).
  assert (Hgone : stored objID
            (withDocs (deleteFirst {[ "_id" := BObjectID objID ]} (docs st)).2
                      (sent (CmdDeleteOne {[ "_id" := BObjectID objID ]}) st)) = None).
  { unfold stored. cbn [docs withDocs]. by apply (deleteFirst_gone _ _ d). }
  split; [|split].
  - cbn [docs withDocs]. by apply (deleteFirst_length _ _ d).
  - by apply (getBookByID_missing id objID).
  - by apply (deleteBook_missing id objID).
Qed.

Lemma deleted_book_is_gone_witness :
  uniqueIDs (docs (library [bson_Marshal dune; badPrice])) ∧
  fst <$> answer (serve deleteBook (byID duneID) noBody
                        (library [bson_Marshal dune; badPrice])) = Some StatusOK ∧
  S (length (docs (store (final (serve deleteBook (byID duneID) noBody
                                       (library [bson_Marshal dune; badPrice]))))))
    = 2 ∧
  answer (serve getBookByID (byID duneID) noBody
                (store (final (serve deleteBook (byID duneID) noBody
                                     (library [bson_Marshal dune; badPrice])))))
    = Some (StatusNotFound, PH [("error", AString "Book not found")]) ∧
  answer (serve deleteBook (byID duneID) noBody
                (store (final (serve deleteBook (byID duneID) noBody
                                     (library [bson_Marshal dune; badPrice])))))
    = Some (StatusNotFound, PH [("message", AString "Book not found")]).
Proof.
  assert (H1 : uniqueIDs (docs (library [bson_Marshal dune; badPrice]))).
  { unfold uniqueIDs. apply (bool_decide_unpack _). vm_compute. exact I. }
  assert (H2 : fst <$> answer (serve deleteBook (byID duneID) noBody
                 (library [bson_Marshal dune; badPrice])) = Some StatusOK).
  { vm_compute. reflexivity. }
  split; [exact H1|]. split; [exact H2|].
  exact (deleted_book_is_gone duneID noBody noBody _ H1 H2).
Defined.

(** X7. Update-by-id works in place: on every path the collection keeps its
    length and its identifiers, document by document, so nothing is added
    (no upsert) and nothing removed. *)
Theorem update_in_place (params : list (string * string)) (body : BodyText)
    (st : Store) :
  let st' := store (final (serve updateBook params body st)) in
  ids (docs st') = ids (docs st) ∧ length (docs st') = length (docs st).
Proof.
  cbv zeta.
  assert (H : ids (docs (store (final (serve updateBook params body st))))
              = ids (docs st)).
  { destruct (updateBook_store params body st)
      as [->|(objID & fields & [->|(r & bs & Hbs & ->)])]; [done..|].
    cbn [docs withDocs]. apply (updateFirst_ids _ _ _ _ _ Hbs). }
  split; [done|]. apply (f_equal length) in H. unfold ids in H.
  by rewrite !length_fmap in H.
Qed.

Lemma bson_Marshal_keys (b : Book) (k : string) :
  k ∉ bookKeys → bson_Marshal b !! k = None.
Proof.
  unfold bookKeys. rewrite !not_elem_of_cons. intros (H1 & H2 & H3 & H4 & _).
  unfold bson_Marshal. destruct (IsZero (ID b)); by simplify_map_eq.
Qed.

(** X8. An update answered 200 leaves alone what a [Book] has no field for:
    the [_id] of the stored document and every field other than [title],
    [author] and [price] are what they were. *)
Theorem update_keeps_other_fields (id : string) (body : BodyText) (st : Store) :
  let st' := store (final (serve updateBook (byID id) body st)) in
  fst <$> answer (serve updateBook (byID id) body st) = Some StatusOK →
  ∃ objID d d',
    ObjectIDFromHex id = inr objID ∧
    stored objID st = Some d ∧ stored objID st' = Some d' ∧
    d' !! "_id" = d !! "_id" ∧
    ∀ k, k ∉ bookKeys → d' !! k = d !! k.
Proof.
  intros st' Hok. subst st'.
  destruct (updateBook_ok id body st Hok)
    as (objID & b & d & d' & Hid & Hbody & Hd & Hd' & Hfault & Hstored).
  exists objID, d, d'. repeat split; [done..| |].
  - apply (applySet_id _ _ _ Hd').
  - intros k Hk. assert (d' = bson_Marshal b ∪ d) as ->.
    { unfold applySet in Hd'.
      destruct (bson_Marshal b !! "_id"); [case_bool_decide|]; congruence. }
    apply lookup_union_r. by apply bson_Marshal_keys.
Qed.

Lemma update_keeps_other_fields_witness :
  fst <$> answer (serve updateBook (byID duneID) priceOnly
                        (library [<["year" := BInt32 1965]> (bson_Marshal dune)]))
    = Some StatusOK ∧
  ∃ objID d d',
    ObjectIDFromHex duneID = inr objID ∧
    stored objID (library [<["year" := BInt32 1965]> (bson_Marshal dune)]) = Some d ∧
    stored objID (store (final (serve updateBook (byID duneID) priceOnly
                    (library [<["year" := BInt32 1965]> (bson_Marshal dune)])))) = Some d' ∧
    d' !! "_id" = d !! "_id" ∧
    ∀ k, k ∉ bookKeys → d' !! k = d !! k.
Proof.
  assert (H : fst <$> answer (serve updateBook (byID duneID) priceOnly
                (library [<["year" := BInt32 1965]> (bson_Marshal dune)]))
              = Some StatusOK) by (vm_compute; reflexivity).
  split; [exact H|]. exact (update_keeps_other_fields duneID priceOnly _ H).
Defined.

Lemma findFirst_app_new (v : bval) (bs : list Doc) (d : Doc) :
  ¬ Exists (λ x : Doc, x !! "_id" = Some v) bs → d !! "_id" = Some v →
  findFirst {[ "_id" := v ]} (bs ++ [d]) = Some d.
Proof.
  intros Hnew Hd. induction bs as [|x bs IH]; unfold findFirst; cbn [app List.find].
  - rewrite matches_id. by rewrite bool_decide_eq_true_2.
  - rewrite matches_id. rewrite bool_decide_eq_false_2.
    + apply IH. intros H. apply Hnew. by apply Exists_cons_tl.
    + intros H. apply Hnew. by apply Exists_cons_hd.
Qed.

(** X9. Create, then get: when create answers 201, get-by-id on the
    identifier it reports, written in hexadecimal, answers 200 with a book
    of that identifier and the title, author and price of the request. *)
Theorem created_book_is_found (params : list (string * string)) (body body' : BodyText)
    (st : Store) (newBook : Book) (id : ObjectID) :
  length (nextID st) = 12 →
  decodeJSON body zeroBook = inr newBook →
  answer (serve addBook params body st)
    = Some (StatusCreated,
            PH [("insertedID", AInsertOneResult {| InsertedID := BObjectID id |})]) →
  answer (serve getBookByID (byID (Hex id)) body'
                (store (final (serve addBook params body st))))
    = Some (StatusOK, PBook (mkBook id (Title newBook) (Author newBook) (Price newBook))).
Proof.
  intros Hnext Hbody. pose proof (decodeJSON_ID_length body newBook Hbody) as Hlen.
  unfold serve, addBook. erewrite bind_Done by apply BindJSON_run.
  cbn [ctx store newContext Body]. rewrite Hbody.
  unfold mbind, M_bind, InsertOne. rewrite call_run. cbn [ctx store].
  destruct (fault st) as [e|] eqn:Hfault; [done|].
  case_bool_decide as Hdup; [done|]. rewrite bson_Marshal_id in *.
  set (v := default (BObjectID (nextID st))
              (if IsZero (ID newBook) then None else Some (BObjectID (ID newBook)))) in *.
  intros Hans. assert (Hv : v = BObjectID id) by (injection Hans; congruence).
  assert (Hid : length id = 12).
  { subst v. destruct (IsZero (ID newBook)); injection Hv as <-; done. }
  clear Hans. rewrite store_JSON. cbn [store].
  apply (getBookByID_found (Hex id) id body' _
           (<["_id" := v]> (bson_Marshal newBook))).
  - by apply ObjectIDFromHex_Hex.
  - done.
  - unfold stored. cbn [docs withDocs]. rewrite <- Hv.
    apply findFirst_app_new; [done|]. by rewrite lookup_insert_eq.
  - apply bson_Unmarshal_fields.
    + by rewrite lookup_insert_eq, Hv.
    + rewrite lookup_insert_ne by done. by apply (bson_Marshal_field FTitle).
    + rewrite lookup_insert_ne by done. by apply (bson_Marshal_field FAuthor).
    + rewrite lookup_insert_ne by done. by apply (bson_Marshal_field FPrice).
Qed.

Lemma created_book_is_found_witness :
  length (nextID (library [bson_Marshal dune])) = 12 ∧
  decodeJSON (Text (JObject [("title", JString "Emma"); ("author", JString "Austen")]))
             zeroBook
    = inr (mkBook NilObjectID "Emma" "Austen" float64_zero) ∧
  answer (serve addBook []
                (Text (JObject [("title", JString "Emma"); ("author", JString "Austen")]))
                (library [bson_Marshal dune]))
    = Some (StatusCreated,
            PH [("insertedID", AInsertOneResult {| InsertedID := BObjectID nextOID |})]) ∧
  answer (serve getBookByID (byID (Hex nextOID)) noBody
                (store (final (serve addBook []
                   (Text (JObject [("title", JString "Emma"); ("author", JString "Austen")]))
                   (library [bson_Marshal dune])))))
    = Some (StatusOK, PBook (mkBook nextOID "Emma" "Austen" float64_zero)).
Proof.
  assert (H1 : length (nextID (library [bson_Marshal dune])) = 12) by reflexivity.
  assert (H2 : decodeJSON
                 (Text (JObject [("title", JString "Emma"); ("author", JString "Austen")]))
                 zeroBook
               = inr (mkBook NilObjectID "Emma" "Austen" float64_zero)) by reflexivity.
  assert (H3 : answer (serve addBook []
                 (Text (JObject [("title", JString "Emma"); ("author", JString "Austen")]))
                 (library [bson_Marshal dune]))
    = Some (StatusCreated,
            PH [("insertedID", AInsertOneResult {| InsertedID := BObjectID nextOID |})]))
    by (vm_compute; reflexivity).
  split; [exact H1|]. split; [exact H2|]. split; [exact H3|].
  exact (created_book_is_found [] _ noBody (library [bson_Marshal dune]) _ nextOID H1 H2 H3).
Defined.

(** X10. Update, then get: when update-by-id answers 200, get-by-id on the
    same identifier answers 200 with the identifier of the path and the
    title, author and price the body was bound to. *)
Theorem updated_book_is_read_back (id : string) (body body' : BodyText) (st : Store)
    (objID : ObjectID) (updatedBook : Book) :
  ObjectIDFromHex id = inr objID →
  decodeJSON body zeroBook = inr updatedBook →
  fst <$> answer (serve updateBook (byID id) body st) = Some StatusOK →
  answer (serve getBookByID (byID id) body'
                (store (final (serve updateBook (byID id) body st))))
    = Some (StatusOK,
            PBook (mkBook objID (Title updatedBook) (Author updatedBook)
                          (Price updatedBook))).
Proof.
  intros Hid Hbody Hok.
  destruct (updateBook_ok id body st Hok)
    as (objID' & b & d & d' & Hid' & Hbody' & Hd & Hd' & Hfault & Hstored).
  assert (objID' = objID) as -> by congruence.
  assert (b = updatedBook) as -> by congruence.
  assert (Hfield : ∀ g, g ≠ FID → d' !! bsonKey g = Some (fieldValue g updatedBook)).
  { intros g Hg. apply (applySet_lookup _ _ _ _ _ Hd'). by apply bson_Marshal_field. }
  apply (getBookByID_found id objID body' _ d'); [done..|].
  apply bson_Unmarshal_fields.
  - by apply (stored_id objID (store (final (serve updateBook (byID id) body st)))).
  - by apply (Hfield FTitle).
  - by apply (Hfield FAuthor).
  - by apply (Hfield FPrice).
Qed.

Lemma updated_book_is_read_back_witness :
  ObjectIDFromHex duneID = inr duneOID ∧
  decodeJSON priceOnly zeroBook = inr (mkBook NilObjectID "" "" (float64_of_Z 12)) ∧
  fst <$> answer (serve updateBook (byID duneID) priceOnly (library [bson_Marshal dune]))
    = Some StatusOK ∧
  answer (serve getBookByID (byID duneID) noBody
                (store (final (serve updateBook (byID duneID) priceOnly
                                     (library [bson_Marshal dune])))))
    = Some (StatusOK, PBook (mkBook duneOID "" "" (float64_of_Z 12))).
Proof.
  assert (H1 : ObjectIDFromHex duneID = inr duneOID) by reflexivity.
  assert (H2 : decodeJSON priceOnly zeroBook
               = inr (mkBook NilObjectID "" "" (float64_of_Z 12))) by reflexivity.
  assert (H3 : fst <$> answer (serve updateBook (byID duneID) priceOnly
                 (library [bson_Marshal dune])) = Some StatusOK)
    by (vm_compute; reflexivity).
  split; [exact H1|]. split; [exact H2|]. split; [exact H3|].
  exact (updated_book_is_read_back duneID priceOnly noBody _ duneOID _ H1 H2 H3).
Defined.

(** ** The two encodings of a [Book] *)

(** X11. The BSON tags of [Book] make its document decode back to it: any
    book, written as the document the store is sent and decoded into a
    fresh [Book], is the same book; a zero identifier is left out of the
    document and comes back as zero. *)
Theorem bson_round_trip (b : Book) : bson_Unmarshal (bson_Marshal b) zeroBook = inr b.
Proof.
  unfold bson_Unmarshal, decodeField.
  rewrite bson_Marshal_id,
    (bson_Marshal_field FTitle), (bson_Marshal_field FAuthor),
    (bson_Marshal_field FPrice) by done.
  destruct b as [id title author price]. cbn [fieldValue ID Title Author Price].
  unfold IsZero. case_bool_decide as Hz; cbn [decodeObjectID zeroBook ID]; [|done].
  cbn [decodeString decodeFloat64]. by rewrite Hz.
Qed.



(** ** What every answer has in common *)

Lemma bson_Unmarshal_ID (d : Doc) (id : ObjectID) (book : Book) :
  d !! "_id" = Some (BObjectID id) → bson_Unmarshal d zeroBook = inr book →
  ID book = id.
Proof.
  intros Hid. unfold bson_Unmarshal. unfold decodeField at 1. rewrite Hid.
  cbn [decodeObjectID].
  destruct (decodeField d "title" decodeString _); [done|].
  destruct (decodeField d "author" decodeString _); [done|].
  destruct (decodeField d "price" decodeFloat64 _); [done|].
  by intros [= <-].
Qed.

(** X13. A book that get-by-id answers with is the one asked for: its
    identifier is the identifier of the path. *)
Theorem getBookByID_returns_asked_id (id : string) (body : BodyText) (st : Store)
    (book : Book) :
  answer (serve getBookByID (byID id) body st) = Some (StatusOK, PBook book) →
  ObjectIDFromHex id = inr (ID book).
Proof.
  unfold getBookByID. rewrite serve_byID.
  destruct (ObjectIDFromHex id) as [e|objID]; [done|].
  unfold mbind, M_bind, FindOne. rewrite call_run. cbn [ctx store].
  destruct (fault st); [done|].
  destruct (findFirst _ (docs st)) as [d|] eqn:Hd; [|done].
  cbn [SingleResult_Decode].
  destruct (bson_Unmarshal d zeroBook) as [e|b] eqn:Hb; [done|].
  intros [= <-]. f_equal. symmetry. apply (bson_Unmarshal_ID d objID b); [|done].
  by apply (stored_id objID st).
Qed.

Lemma getBookByID_returns_asked_id_witness :
  answer (serve getBookByID (byID duneID) noBody (library [badPrice; bson_Marshal dune]))
    = Some (StatusOK, PBook dune) ∧
  ObjectIDFromHex duneID = inr (ID dune).
Proof.
  assert (H : answer (serve getBookByID (byID duneID) noBody
                       (library [badPrice; bson_Marshal dune]))
              = Some (StatusOK, PBook dune)) by (vm_compute; reflexivity).
  split; [exact H|]. exact (getBookByID_returns_asked_id duneID noBody _ dune H).
Defined.

Lemma addBook_answers (params : list (string * string)) (body : BodyText) (st : Store) :
  let a := answer (serve addBook params body st) in
  (∃ err, a = Some (StatusBadRequest, PH [("error", AString (Error err))])) ∨
  a = Some (StatusInternalServerError, PH [("error", AString "Error inserting book")]) ∨
  ∃ r, a = Some (StatusCreated, PH [("insertedID", AInsertOneResult r)]).
Proof.
  cbv zeta. unfold serve, addBook. erewrite bind_Done by apply BindJSON_run.
  cbn [ctx store newContext Body].
  destruct (decodeJSON body zeroBook) as [err|newBook]; [left; by exists err|].
  right. unfold mbind, M_bind, InsertOne. rewrite call_run. cbn [ctx store].
  destruct (fault st); [by left|].
  case_bool_decide; [by left|]. right. by eexists.
Qed.

(** X14. Only the list handler can end the process. The four other
    handlers return on every request, and every handler that returns has
    answered once, with a status of its route: 200 or 500 for the list, 200,
    400 or 404 for get-by-id, 201, 400 or 500 for create, and 200, 400, 404
    or 500 for update-by-id and delete-by-id. *)
Theorem handlers_answer_once (id : string) (params : list (string * string))
    (body : BodyText) (st : Store) :
  let answers (o : Outcome unit) (codes : list Z) :=
    ∃ code obj, answer o = Some (code, obj) ∧ code ∈ codes in
  (∀ s, serve getBooks params body st = Done tt s →
        answers (serve getBooks params body st) [StatusOK; StatusInternalServerError]) ∧
  answers (serve getBookByID (byID id) body st)
          [StatusOK; StatusBadRequest; StatusNotFound] ∧
  answers (serve addBook params body st)
          [StatusCreated; StatusBadRequest; StatusInternalServerError] ∧
  answers (serve updateBook (byID id) body st)
          [StatusOK; StatusBadRequest; StatusNotFound; StatusInternalServerError] ∧
  answers (serve deleteBook (byID id) body st)
          [StatusOK; StatusBadRequest; StatusNotFound; StatusInternalServerError].
Proof.
  cbv zeta. split; [|split; [|split; [|split]]].
  - unfold serve, getBooks, mbind, M_bind, Find. rewrite call_run. cbn [ctx store].
    destruct (fault st) as [e|].
    + intros s _. eexists _, _. split; [reflexivity|]. set_solver.
    + match goal with |- context [drain ?c ?a ?s0] =>
        pose proof (drain_final c a s0) as Hs; destruct (drain c a s0) as [bs s1|] end;
        [|done].
      cbn [final] in Hs. subst s1.
      intros s _. eexists _, _. split; [reflexivity|]. set_solver.
  - destruct (getBookByID_answers id body st) as [H|[H|[book H]]];
      cbv zeta in H; rewrite H; eexists _, _; (split; [reflexivity|set_solver]).
  - destruct (addBook_answers params body st) as [[err H]|[H|[r H]]];
      cbv zeta in H; rewrite H; eexists _, _; (split; [reflexivity|set_solver]).
  - destruct (updateBook_answers id body st) as [H|[[err H]|[H|[H|H]]]];
      cbv zeta in H; rewrite H; eexists _, _; (split; [reflexivity|set_solver]).
  - destruct (deleteBook_answers id body st) as [H|[H|[H|H]]];
      cbv zeta in H; rewrite H; eexists _, _; (split; [reflexivity|set_solver]).
Qed.

Lemma handlers_answer_once_witness :
  (∃ s, serve getBooks [] noBody (library [bson_Marshal dune]) = Done tt s) ∧
  (∃ code obj, answer (serve getBooks [] noBody (library [bson_Marshal dune]))
                 = Some (code, obj) ∧
               code ∈ [StatusOK; StatusInternalServerError]).
Proof.
  assert (H : serve getBooks [] noBody (library [bson_Marshal dune])
              = Done tt (final (serve getBooks [] noBody (library [bson_Marshal dune]))))
    by (vm_compute; reflexivity).
  split; [by eexists|].
  exact (proj1 (handlers_answer_once duneID [] noBody (library [bson_Marshal dune])) _ H).
Defined.

(** X15. An update whose identifier parses but whose body does not bind
    stops there: the body has been read, no command goes to the store and
    the store is as it was. *)
Theorem unbound_update_sends_nothing (id : string) (objID : ObjectID) (body : BodyText)
    (st : Store) (err : error) :
  ObjectIDFromHex id = inr objID → decodeJSON body zeroBook = inl err →
  let o := serve updateBook (byID id) body st in
  store (final o) = st ∧ bodyRead (ctx (final o)) = true.
Proof.
  intros Hid Hbody. cbv zeta. rewrite (updateBook_parsed id objID body st Hid).
  erewrite bind_Done by apply BindJSON_run. cbn [ctx store newContext Body].
  rewrite Hbody. split; [|done]. rewrite store_JSON. by destruct st.
Qed.

Lemma unbound_update_sends_nothing_witness :
  ObjectIDFromHex duneID = inr duneOID ∧
  decodeJSON (Text (JObject [("title", JNumber (float64_of_Z 7))])) zeroBook
    = inl (UnmarshalTypeError "number" "Book.title" "string") ∧
  store (final (serve updateBook (byID duneID)
                      (Text (JObject [("title", JNumber (float64_of_Z 7))]))
                      (library [bson_Marshal dune])))
    = library [bson_Marshal dune] ∧
  bodyRead (ctx (final (serve updateBook (byID duneID)
                      (Text (JObject [("title", JNumber (float64_of_Z 7))]))
                      (library [bson_Marshal dune])))) = true.
Proof.
  assert (H1 : ObjectIDFromHex duneID = inr duneOID) by reflexivity.
  assert (H2 : decodeJSON (Text (JObject [("title", JNumber (float64_of_Z 7))])) zeroBook
               = inl (UnmarshalTypeError "number" "Book.title" "string")) by reflexivity.
  split; [exact H1|]. split; [exact H2|].
  exact (unbound_update_sends_nothing duneID duneOID _ (library [bson_Marshal dune]) _ H1 H2).
Defined.


Lemma getBooks_outcomes_witness :
  answer (serve getBooks [] noBody (unreachable [bson_Marshal dune]))
    = Some (StatusInternalServerError, PH [("error", AString "Error retrieving books")]) ∧
  answer (serve getBooks [] noBody (library [bson_Marshal dune]))
    = Some (StatusOK, PBooks (Some [dune])).
Proof.
  split.
  - exact (proj1 (getBooks_outcomes [] noBody (unreachable [bson_Marshal dune]))
                 DeadlineExceeded eq_refl).
  - refine (proj1 (proj2 (getBooks_outcomes [] noBody (library [bson_Marshal dune]))
                         [dune] eq_refl _)).
    vm_compute. reflexivity.
Defined.
